(** * Resume-Hub: the Express/MongoDB backend, embedded and verified

    The development follows the server module (the route handlers) and
    [db.js] (the connection set-up with its two indexes).

    - A MongoDB document is a finite map from field names to values,
      a collection is the list of its documents in insertion order, the
      database is the pair of the [users] and [resumes] collections.
    - A route handler is a program of [Prog]: one [Await] per [await] of the
      source, so that a handler can be run alone ([run]) or interleaved with
      other requests ([interleave]).  An exception thrown inside the [try]
      block is [Throw]; the [catch] block turns it into the handler's
      status-500 answer.
    - What the source takes from outside the repository is a field of
      [Platform]: bcrypt, the driver's [ObjectId] constructor, and the
      JavaScript object that the admin join uses as a dictionary.
    - The two [async] functions of [db.js] are [Task]s over the module's two
      variables, and [startup] is the server module run from its first line
      to its last.
    - Request fields are strings, as the front end sends them; stored field
      values are scalars.  The store itself is taken not to fail (no
      network error, no document size limit). *)

From Stdlib Require Import ZArith Ascii String Sorted.
From stdpp Require Import gmap strings list pretty.

Set Warnings "-clear-no-such-hyp,-register-all".

Local Open Scope Z_scope.
Local Open Scope string_scope.
Local Open Scope list_scope.

(** ** Values and documents *)

(** The twelve bytes of an ObjectId, held as the 24 hexadecimal digits by
    which the driver prints them ([toHexString], also its JSON form). *)
Record ObjectId := Oid { toHexString : string }.

#[global] Instance ObjectId_eq_dec : EqDecision ObjectId.
Proof. solve_decision. Defined.

Inductive value :=
| VNull
| VBool (b : bool)
| VNum (n : Z)
| VStr (s : string)
| VDate (t : Z)
| VOid (o : ObjectId).

#[global] Instance value_eq_dec : EqDecision value.
Proof. solve_decision. Defined.

Abbreviation doc := (gmap string value).

(** [{ ...d, k: e }] where the JavaScript expression [e] may be [undefined]:
    a key whose value is [undefined] is left out of the JSON answer. *)
Definition set_field (k : string) (e : option value) (d : doc) : doc :=
  match e with
  | Some v => <[k := v]> d
  | None => delete k d
  end.

(** ** Queries, updates and the collection operations of the driver *)

Inductive cond :=
| Is (v : value)          (* { field: v } *)
| Ne (v : value).         (* { field: { $ne: v } } *)

Abbreviation query := (list (string * cond)).

(** Equality match of a field; a missing field matches [null] only. *)
Definition field_is (o : option value) (v : value) : bool :=
  match o with
  | Some w => bool_decide (w = v)
  | None => bool_decide (v = VNull)
  end.

Definition holds (d : doc) (kc : string * cond) : bool :=
  match kc.2 with
  | Is v => field_is (d !! kc.1) v
  | Ne v => negb (field_is (d !! kc.1) v)
  end.

Definition matches (q : query) (d : doc) : bool := forallb (holds d) q.

Inductive update :=
| Set_ (fs : list (string * value))     (* { $set: {...} } *)
| Unset (ks : list string).             (* { $unset: {...} } *)

Definition apply_update (u : update) (d : doc) : doc :=
  match u with
  | Set_ fs => foldr (λ kv acc, <[kv.1 := kv.2]> acc) d fs
  | Unset ks => foldr delete d ks
  end.

Definition findOne (q : query) (c : list doc) : option doc :=
  List.find (matches q) c.

Definition find (q : query) (c : list doc) : list doc :=
  List.filter (matches q) c.

(** [updateOne] changes the first matching document and answers
    [matchedCount]. *)
Fixpoint updateOne (q : query) (u : update) (c : list doc) : list doc * nat :=
  match c with
  | [] => ([], 0%nat)
  | d :: c' =>
      if matches q d then (apply_update u d :: c', 1%nat)
      else let r := updateOne q u c' in (d :: r.1, r.2)
  end.

(** [deleteOne] removes the first matching document and answers
    [deletedCount]. *)
Fixpoint deleteOne (q : query) (c : list doc) : list doc * nat :=
  match c with
  | [] => ([], 0%nat)
  | d :: c' =>
      if matches q d then (c', 1%nat)
      else let r := deleteOne q c' in (d :: r.1, r.2)
  end.

Definition deleteMany (q : query) (c : list doc) : list doc * nat :=
  (List.filter (λ d, negb (matches q d)) c, length (List.filter (matches q) c)).

(** A unique index counts a missing field as [null]. *)
Definition index_key (k : string) (d : doc) : value := default VNull (d !! k).

Definition violates (unique : list string) (d : doc) (c : list doc) : bool :=
  existsb (λ k, existsb (λ e, bool_decide (index_key k e = index_key k d)) c)
          unique.

(** [insertOne]: the driver gives the document the [_id] it has generated
    when the document has none (the caller's object is changed too), and the
    store refuses a duplicate key of [_id] or of a unique index. *)
Definition with_id (fresh : ObjectId) (d : doc) : doc :=
  match d !! "_id" with
  | Some _ => d
  | None => <["_id" := VOid fresh]> d
  end.

Definition insertOne (unique : list string) (fresh : ObjectId) (d : doc)
    (c : list doc) : option (doc * list doc) :=
  let d' := with_id fresh d in
  if violates ("_id" :: unique) d' c then None else Some (d', c ++ [d']).

(** [.project({ k: 0, ... })] *)
Definition project_out (ks : list string) (c : list doc) : list doc :=
  map (λ d, foldr delete d ks) c.

(** *** [.sort({ field: -1 })]

    BSON compares values of different types by type first: null (and a
    missing field), numbers, strings, ObjectId, booleans, dates. The store
    promises no order between documents that compare equal; here they keep
    the order they had. *)
Definition bson_rank (o : option value) : Z :=
  match o with
  | None | Some VNull => 0
  | Some (VNum _) => 1
  | Some (VStr _) => 2
  | Some (VOid _) => 3
  | Some (VBool _) => 4
  | Some (VDate _) => 5
  end.

Definition bson_compare (a b : option value) : comparison :=
  match a, b with
  | Some (VNum x), Some (VNum y) => Z.compare x y
  | Some (VStr x), Some (VStr y) => String.compare x y
  | Some (VOid x), Some (VOid y) => String.compare (toHexString x) (toHexString y)
  | Some (VBool x), Some (VBool y) => Bool.compare x y
  | Some (VDate x), Some (VDate y) => Z.compare x y
  | _, _ => Z.compare (bson_rank a) (bson_rank b)
  end.

Fixpoint insert_desc (k : string) (d : doc) (c : list doc) : list doc :=
  match c with
  | [] => [d]
  | e :: c' =>
      match bson_compare (d !! k) (e !! k) with
      | Lt => e :: insert_desc k d c'
      | _ => d :: c
      end
  end.

Definition sort_desc (k : string) (c : list doc) : list doc :=
  foldr (insert_desc k) [] c.

(** ** The database *)

Record Store := { users : list doc; resumes : list doc }.

Inductive coll := Users | Resumes.

Definition collection (c : coll) (st : Store) : list doc :=
  match c with Users => users st | Resumes => resumes st end.

Definition put (c : coll) (l : list doc) (st : Store) : Store :=
  match c with
  | Users => {| users := l; resumes := resumes st |}
  | Resumes => {| users := users st; resumes := l |}
  end.

(** [db.js]: a unique index on [users.email]; the index on [resumes.userId]
    is not unique. *)
Definition unique_index (c : coll) : list string :=
  match c with Users => ["email"] | Resumes => [] end.

(** ** Handlers as programs over the database *)

(** One [Await] stands for one [await] of the source: the awaited operation
    runs atomically on the store, and other requests may run between two of
    them. [Throw] is an exception on its way to the handler's [catch]. *)
Inductive Prog (R : Type) : Type :=
| Ret (r : R)
| Throw
| Await {X : Type} (op : Store → X * Store) (k : X → Prog R).

Arguments Ret {R} r.
Arguments Throw {R}.
Arguments Await {R X} op k.

Fixpoint bind {A B : Type} (p : Prog A) (f : A → Prog B) : Prog B :=
  match p with
  | Ret a => f a
  | Throw => Throw
  | Await op k => Await op (λ x, bind (k x) f)
  end.

#[global] Instance Prog_ret : MRet Prog := @Ret.
#[global] Instance Prog_bind : MBind Prog := λ A B f p, bind p f.

(** [try { p } catch (error) { ...; res.status(500).json(h) }] *)
Fixpoint try_catch {R : Type} (p : Prog R) (h : R) : Prog R :=
  match p with
  | Ret r => Ret r
  | Throw => Ret h
  | Await op k => Await op (λ x, try_catch (k x) h)
  end.

(** A request served with no other request in between. *)
Fixpoint run {R : Type} (p : Prog R) (st : Store) : option R * Store :=
  match p with
  | Ret r => (Some r, st)
  | Throw => (None, st)
  | Await op k => let r := op st in run (k r.1) r.2
  end.

(** One atomic step of a request. *)
Definition step {R : Type} (p : Prog R) (st : Store) : Prog R * Store :=
  match p with
  | Await op k => let r := op st in (k r.1, r.2)
  | _ => (p, st)
  end.

(** Requests in flight together: the schedule names, step by step, the
    request that performs its next awaited operation. *)
Fixpoint interleave {R : Type} (sched : list nat) (pool : list (Prog R))
    (st : Store) : list (Prog R) * Store :=
  match sched with
  | [] => (pool, st)
  | i :: sched' =>
      match pool !! i with
      | Some p => let r := step p st in interleave sched' (<[i := r.1]> pool) r.2
      | None => interleave sched' pool st
      end
  end.

(** The awaited calls. *)
Definition resolved {X : Type} (x : X) : Prog X :=
  Await (λ st, (x, st)) Ret.

Definition db_findOne (c : coll) (q : query) : Prog (option doc) :=
  Await (λ st, (findOne q (collection c st), st)) Ret.

(** [.find(q)...toArray()]; [cursor] is the chain of [.sort] and [.project]. *)
Definition db_find (c : coll) (q : query) (cursor : list doc → list doc)
    : Prog (list doc) :=
  Await (λ st, (cursor (find q (collection c st)), st)) Ret.

(** Answers the inserted document, whose [_id] is [result.insertedId]; a
    refused insert throws. *)
Definition db_insertOne (c : coll) (fresh : ObjectId) (d : doc) : Prog doc :=
  Await (λ st, match insertOne (unique_index c) fresh d (collection c st) with
               | Some r => (Some r.1, put c r.2 st)
               | None => (None, st)
               end)
        (λ r, match r with Some d' => Ret d' | None => Throw end).

Definition db_updateOne (c : coll) (q : query) (u : update) : Prog nat :=
  Await (λ st, let r := updateOne q u (collection c st) in (r.2, put c r.1 st)) Ret.

Definition db_deleteOne (c : coll) (q : query) : Prog nat :=
  Await (λ st, let r := deleteOne q (collection c st) in (r.2, put c r.1 st)) Ret.

Definition db_deleteMany (c : coll) (q : query) : Prog nat :=
  Await (λ st, let r := deleteMany q (collection c st) in (r.2, put c r.1 st)) Ret.

(** ** Answers *)

Inductive Json :=
| JObj (d : doc)
| JArr (l : list doc).

Record Response := { status : Z; body : Json }.

(** [res.status(code).json(d)]; [res.json(d)] is status 200. *)
Definition json (code : Z) (d : doc) : Response :=
  {| status := code; body := JObj d |}.

Definition json_list (code : Z) (l : list doc) : Response :=
  {| status := code; body := JArr l |}.

Definition message (s : string) : doc := {[ "message" := VStr s ]}.

(** The error kinds of the specification are the status codes. *)
Definition Conflict : Z := 400.
Definition Unauthorized : Z := 401.
Definition Forbidden : Z := 403.
Definition NotFound : Z := 404.
Definition StoreFailure : Z := 500.

(** [d => ({ ...d, id: d._id })] *)
Definition add_id (d : doc) : doc := set_field "id" (d !! "_id") d.

(** ** What the handlers take from outside the repository *)

Class Platform := {
  (** [bcrypt.hash(password, 10)], by the salt it draws *)
  bcrypt_hash : string → string → string;
  (** [bcrypt.compare(password, hash)] on two strings *)
  bcrypt_compare : string → string → bool;
  (** [new ObjectId(id)]; [None] when the constructor throws *)
  ObjectId_new : string → option ObjectId;
  (** [String(n)] for a number and for a date *)
  Number_toString : Z → string;
  Date_toString : Z → string;
  (** what [({})[k]] inherits from [Object.prototype], seen through its
      properties *)
  Object_prototype : string → option doc;
}.

(** What a request draws while it is served: the clock read by [new Date()],
    the [_id] generated by the driver, the salt of bcrypt. *)
Record Env := { now : Z; fresh : ObjectId; salt : string }.

Section Handlers.
Context {P : Platform}.

(** [new ObjectId(id)] inside a [try] block. *)
Definition new_ObjectId (id : string) : Prog ObjectId :=
  match ObjectId_new id with
  | Some oid => Ret oid
  | None => Throw
  end.

(** [await bcrypt.compare(password, user.password)]: the call is rejected
    when the stored credential is missing or is not a string. *)
Definition compare_password (password : string) (stored : option value)
    : Prog bool :=
  match stored with
  | Some (VStr h) => resolved (bcrypt_compare password h)
  | _ => Throw
  end.

(** [x || d] on a request field that may be missing or empty. *)
Definition or_default (x : option string) (d : string) : string :=
  match x with
  | Some s => if bool_decide (s = "") then d else s
  | None => d
  end.

(** POST /api/users/register *)
Definition register (e : Env) (name email password : string) : Prog Response :=
  try_catch
    (existingUser ← db_findOne Users [("email", Is (VStr email))];
     match existingUser with
     | Some _ => mret (json 400 (message "User with this email already exists"))
     | None =>
         hashedPassword ← resolved (bcrypt_hash (salt e) password);
         let newUser : doc :=
           {[ "name" := VStr name; "email" := VStr email;
              "password" := VStr hashedPassword; "role" := VStr "user";
              "createdAt" := VDate (now e) ]} in
         newUser ← db_insertOne Users (fresh e) newUser;
         let userWithoutPassword := delete "password" newUser in
         mret (json 201 (set_field "id" (newUser !! "_id") userWithoutPassword))
     end)
    (json 500 (message "Server error during registration")).

(** POST /api/users/login *)
Definition login (email password : string) : Prog Response :=
  try_catch
    (user ← db_findOne Users [("email", Is (VStr email))];
     match user with
     | None => mret (json 401 (message "Invalid email or password"))
     | Some user =>
         isPasswordValid ← compare_password password (user !! "password");
         if negb isPasswordValid
         then mret (json 401 (message "Invalid email or password"))
         else
           let userWithoutPassword := delete "password" user in
           mret (json 200 (set_field "id" (user !! "_id") userWithoutPassword))
     end)
    (json 500 (message "Server error during login")).

(** POST /api/resumes *)
Definition saveResume (e : Env) (userId fileName description fileContent : value)
    : Prog Response :=
  try_catch
    (let newResume : doc :=
       {[ "userId" := userId; "fileName" := fileName;
          "description" := description; "fileContent" := fileContent;
          "uploadedAt" := VDate (now e) ]} in
     newResume ← db_insertOne Resumes (fresh e) newResume;
     mret (json 201 (set_field "id" (newResume !! "_id") newResume)))
    (json 500 (message "Server error while saving resume")).

(** GET /api/users/:userId/resumes *)
Definition getUserResumes (userId : string) : Prog Response :=
  try_catch
    (resumes ← db_find Resumes
                 [("userId", Is (VStr userId)); ("archived", Ne (VBool true))]
                 (sort_desc "uploadedAt");
     mret (json_list 200 (map add_id resumes)))
    (json 500 (message "Server error while fetching resumes")).

(** GET /api/admin/users *)
Definition getAllUsers : Prog Response :=
  try_catch
    (users ← db_find Users [("role", Ne (VStr "admin"))]
               (project_out ["password"]);
     mret (json_list 200 (map add_id users)))
    (json 500 (message "Server error while fetching users")).

(** [usersMap[k]] for a field value [k]: the key is its string form. *)
Definition property_key (k : option value) : string :=
  match k with
  | None => "undefined"
  | Some VNull => "null"
  | Some (VBool b) => if b then "true" else "false"
  | Some (VNum n) => Number_toString n
  | Some (VStr s) => s
  | Some (VDate t) => Date_toString t
  | Some (VOid o) => toHexString o
  end.

Definition build_usersMap (users : list doc) : gmap string doc :=
  foldl (λ usersMap user, <[property_key (user !! "_id") := user]> usersMap)
        ∅ users.

Definition unknown_user : doc :=
  {[ "name" := VStr "Unknown User"; "email" := VStr "Unknown Email" ]}.

(** [usersMap[resume.userId] || { name: 'Unknown User', ... }] *)
Definition owner_of (usersMap : gmap string doc) (resume : doc) : doc :=
  let k := property_key (resume !! "userId") in
  match usersMap !! k with
  | Some user => user
  | None => default unknown_user (Object_prototype k)
  end.

Definition join_user (usersMap : gmap string doc) (resume : doc) : doc :=
  let user := owner_of usersMap resume in
  set_field "userEmail" (user !! "email")
    (set_field "userName" (user !! "name")
       (set_field "id" (resume !! "_id") resume)).

(** GET /api/admin/resumes *)
Definition getAllResumes : Prog Response :=
  try_catch
    (resumes ← db_find Resumes [("archived", Ne (VBool true))]
                 (sort_desc "uploadedAt");
     users ← db_find Users [] (λ c, c);
     let usersMap := build_usersMap users in
     mret (json_list 200 (map (join_user usersMap) resumes)))
    (json 500 (message "Server error while fetching all resumes")).

Definition admin_doc (e : Env) (name email hashedPassword : string) : doc :=
  {[ "name" := VStr name; "email" := VStr email;
     "password" := VStr hashedPassword; "role" := VStr "admin";
     "createdAt" := VDate (now e) ]}.

(** [initializeAdmin], run once the database is connected; it answers
    nothing and only logs an error. *)
Definition initializeAdmin (e : Env) : Prog unit :=
  try_catch
    (adminExists ← db_findOne Users [("role", Is (VStr "admin"))];
     match adminExists with
     | Some _ => mret tt
     | None =>
         hashedPassword ← resolved (bcrypt_hash (salt e) "admin123");
         _ ← db_insertOne Users (fresh e)
               (admin_doc e "Admin User" "admin@resumehub.com" hashedPassword);
         mret tt
     end)
    tt.

(** GET /api/admin/status *)
Definition adminStatus : Prog Response :=
  try_catch
    (adminExists ← db_findOne Users [("role", Is (VStr "admin"))];
     mret (json 200
             {[ "adminExists" := VBool (bool_decide (is_Some adminExists));
                "message" := VStr (match adminExists with
                                   | Some _ => "Admin user exists"
                                   | None => "No admin user found"
                                   end) ]}))
    (json 500 (message "Server error while checking admin status")).

(** POST /api/admin/create *)
Definition createAdmin (e : Env) (email password name : option string)
    : Prog Response :=
  try_catch
    (adminExists ← db_findOne Users [("role", Is (VStr "admin"))];
     match adminExists with
     | Some _ => mret (json 400 (message "Admin user already exists"))
     | None =>
         hashedPassword ← resolved (bcrypt_hash (salt e) (or_default password "admin123"));
         result ← db_insertOne Users (fresh e)
                    (admin_doc e (or_default name "Admin User")
                               (or_default email "admin@resumehub.com")
                               hashedPassword);
         mret (json 201
                 (set_field "id" (result !! "_id")
                    {[ "message" := VStr "Admin user created successfully";
                       "email" := VStr (or_default email "admin@resumehub.com") ]}))
     end)
    (json 500 (message "Server error while creating admin user")).

(** PUT /api/resumes/:id/archive *)
Definition archiveResume (e : Env) (id : string) : Prog Response :=
  try_catch
    (oid ← new_ObjectId id;
     matchedCount ← db_updateOne Resumes [("_id", Is (VOid oid))]
                      (Set_ [("archived", VBool true); ("archivedAt", VDate (now e))]);
     if bool_decide (matchedCount = 0%nat)
     then mret (json 404 (message "Resume not found"))
     else mret (json 200 (message "Resume archived successfully")))
    (json 500 (message "Server error while archiving resume")).

(** DELETE /api/resumes/:id *)
Definition deleteResume (id : string) : Prog Response :=
  try_catch
    (oid ← new_ObjectId id;
     deletedCount ← db_deleteOne Resumes [("_id", Is (VOid oid))];
     if bool_decide (deletedCount = 0%nat)
     then mret (json 404 (message "Resume not found"))
     else mret (json 200 (message "Resume deleted permanently")))
    (json 500 (message "Server error while deleting resume")).

(** PUT /api/admin/resumes/:id/archive *)
Definition adminArchiveResume (e : Env) (id : string) : Prog Response :=
  try_catch
    (oid ← new_ObjectId id;
     matchedCount ← db_updateOne Resumes [("_id", Is (VOid oid))]
                      (Set_ [("archived", VBool true); ("archivedAt", VDate (now e))]);
     if bool_decide (matchedCount = 0%nat)
     then mret (json 404 (message "Resume not found"))
     else mret (json 200 (message "Resume archived successfully")))
    (json 500 (message "Server error while archiving resume")).

(** DELETE /api/admin/resumes/:id *)
Definition adminDeleteResume (id : string) : Prog Response :=
  try_catch
    (oid ← new_ObjectId id;
     deletedCount ← db_deleteOne Resumes [("_id", Is (VOid oid))];
     if bool_decide (deletedCount = 0%nat)
     then mret (json 404 (message "Resume not found"))
     else mret (json 200 (message "Resume deleted successfully")))
    (json 500 (message "Server error while deleting resume")).

(** DELETE /api/admin/users/:id *)
Definition deleteUser (id : string) : Prog Response :=
  try_catch
    (oid ← new_ObjectId id;
     user ← db_findOne Users [("_id", Is (VOid oid))];
     match user with
     | None => mret (json 404 (message "User not found"))
     | Some user =>
         if bool_decide (user !! "role" = Some (VStr "admin"))
         then mret (json 403 (message "Cannot delete admin users"))
         else
           resumeResult ← db_deleteMany Resumes [("userId", Is (VStr id))];
           oid ← new_ObjectId id;
           userResult ← db_deleteOne Users [("_id", Is (VOid oid))];
           if bool_decide (userResult = 0%nat)
           then mret (json 404 (message "User not found"))
           else mret (json 200
                        {[ "message" := VStr "User and all associated resumes deleted successfully";
                           "deletedResumes" := VNum (Z.of_nat resumeResult) ]})
     end)
    (json 500 (message "Server error while deleting user")).

(** GET /api/users/:userId/resumes/archived *)
Definition getArchivedResumes (userId : string) : Prog Response :=
  try_catch
    (archivedResumes ← db_find Resumes
                         [("userId", Is (VStr userId)); ("archived", Is (VBool true))]
                         (sort_desc "archivedAt");
     mret (json_list 200 (map add_id archivedResumes)))
    (json 500 (message "Server error while fetching archived resumes")).

(** PUT /api/resumes/:id/restore *)
Definition restoreResume (id : string) : Prog Response :=
  try_catch
    (oid ← new_ObjectId id;
     matchedCount ← db_updateOne Resumes [("_id", Is (VOid oid))]
                      (Unset ["archived"; "archivedAt"]);
     if bool_decide (matchedCount = 0%nat)
     then mret (json 404 (message "Resume not found"))
     else mret (json 200 (message "Resume restored successfully")))
    (json 500 (message "Server error while restoring resume")).

(** The JSON routes of the server. *)
Inductive Request :=
| POST_users_register (name email password : string)
| POST_users_login (email password : string)
| POST_resumes (userId fileName description fileContent : value)
| GET_users_resumes (userId : string)
| GET_admin_users
| GET_admin_resumes
| GET_admin_status
| POST_admin_create (email password name : option string)
| PUT_resumes_archive (id : string)
| DELETE_resumes (id : string)
| PUT_admin_resumes_archive (id : string)
| DELETE_admin_resumes (id : string)
| DELETE_admin_users (id : string)
| GET_users_resumes_archived (userId : string)
| PUT_resumes_restore (id : string).

Definition handle (e : Env) (req : Request) : Prog Response :=
  match req with
  | POST_users_register name email password => register e name email password
  | POST_users_login email password => login email password
  | POST_resumes userId fileName description fileContent =>
      saveResume e userId fileName description fileContent
  | GET_users_resumes userId => getUserResumes userId
  | GET_admin_users => getAllUsers
  | GET_admin_resumes => getAllResumes
  | GET_admin_status => adminStatus
  | POST_admin_create email password name => createAdmin e email password name
  | PUT_resumes_archive id => archiveResume e id
  | DELETE_resumes id => deleteResume id
  | PUT_admin_resumes_archive id => adminArchiveResume e id
  | DELETE_admin_resumes id => adminDeleteResume id
  | DELETE_admin_users id => deleteUser id
  | GET_users_resumes_archived userId => getArchivedResumes userId
  | PUT_resumes_restore id => restoreResume id
  end.

End Handlers.

(** ** [db.js]: the connection, and the start of the server *)

(** [new MongoClient(url)] and [client.db(dbName)]. *)
Inductive MongoClient := new_MongoClient (url : string).
Inductive Db := client_db (c : MongoClient) (dbName : string).

(** The two variables of the module, [let client; let db;]. *)
Record DbModule := { client : option MongoClient; db : option Db }.

Definition unloaded : DbModule := {| client := None; db := None |}.

(** [process.env], for the two variables [db.js] reads. *)
Record Config := { MONGODB_URI : option string; DB_NAME : option string }.

Definition url (cfg : Config) : string :=
  or_default (MONGODB_URI cfg) "mongodb://localhost:27017".

Definition dbName (cfg : Config) : string :=
  or_default (DB_NAME cfg) "resumeHub".

(** The promise of an [async] function of [db.js]: settled, or waiting at an
    [await] for a promise of the driver; [resume ok] goes on from there when
    that promise is fulfilled ([ok]) or rejected, on the module's variables
    as they are by then. *)
Inductive Task (R : Type) : Type :=
| Fulfilled (r : R)
| Rejected
| Suspended (resume : bool → DbModule → DbModule * Task R).

Arguments Fulfilled {R} r.
Arguments Rejected {R}.
Arguments Suspended {R} resume.

(** The awaited promises settle one after the other, as [outs] says. *)
Fixpoint settle {R : Type} (outs : list bool) (s : DbModule * Task R)
    : DbModule * Task R :=
  match outs with
  | [] => s
  | ok :: outs' =>
      match s.2 with
      | Suspended resume => settle outs' (resume ok s.1)
      | _ => s
      end
  end.

(** [connectToMongoDB]: a call runs at once up to its first [await]. The
    [catch] block logs and throws again, so that a rejected [await] rejects
    the call; so does [client.db] or [db.collection] on a variable that
    [closeMongoDBConnection] has set to [null] in between, and so does the
    constructor of the driver on a connection string it cannot read
    ([well_formed] tells which it can), [client] then staying unset. *)
Definition connectToMongoDB (well_formed : string → bool) (cfg : Config)
    (m : DbModule) : DbModule * Task (option Db) :=
  match client m with
  | Some _ => (m, Fulfilled (db m))
  | None =>
      if negb (well_formed (url cfg)) then (m, Rejected) else
      ({| client := Some (new_MongoClient (url cfg)); db := db m |},
       Suspended (λ ok m,                      (* await client.connect() *)
         if negb ok then (m, Rejected) else
         match client m with
         | None => (m, Rejected)
         | Some c =>
             ({| client := client m; db := Some (client_db c (dbName cfg)) |},
              Suspended (λ ok m,               (* await ...('users').createIndex *)
                if negb ok then (m, Rejected) else
                match db m with
                | None => (m, Rejected)
                | Some _ =>
                    (m, Suspended (λ ok m,     (* await ...('resumes').createIndex *)
                       if negb ok then (m, Rejected) else (m, Fulfilled (db m))))
                end))
         end))
  end.

(** [closeMongoDBConnection]; it has no [catch]. *)
Definition closeMongoDBConnection (m : DbModule) : DbModule * Task unit :=
  match client m with
  | Some _ =>
      (m, Suspended (λ ok m,                   (* await client.close() *)
         if negb ok then (m, Rejected)
         else ({| client := None; db := None |}, Fulfilled tt)))
  | None => (m, Fulfilled tt)
  end.

(** The server process: the module [db.js], the server's own [let db], and
    the database behind the connection. *)
Record Process := {
  module_state : DbModule;
  server_db : option Db;
  listening : bool;
  exited : bool;
  store : Store;
}.

Section Startup.
Context {P : Platform}.

(** [initializeAdmin] with its guard [if (!db) { ...; return; }] on the
    server's [db]. *)
Definition initializeAdmin_guarded (server_db : option Db) (e : Env) : Prog unit :=
  match server_db with
  | None => mret tt
  | Some _ => initializeAdmin e
  end.

(** The server module from its first line to its last. [connectToMongoDB]
    is called twice while the module is evaluated: the first call stops at
    [await client.connect()], the second finds [client] set and returns
    [db] as it is. The promise of the second call is settled when its
    [.then] is attached, so its callback runs as soon as the module has been
    evaluated, before any answer of the network lets the first call go on:
    [db = database; await initializeAdmin(); app.listen(...)]. The callback
    of the first call ([db = database]) runs when that call is fulfilled;
    a rejected call ends the process ([process.exit(1)]), at once when the
    connection string is refused. *)
Definition startup (well_formed : string → bool) (cfg : Config)
    (outs : list bool) (e : Env) (st : Store) : Process :=
  let a := connectToMongoDB well_formed cfg unloaded in
  let b := connectToMongoDB well_formed cfg a.1 in
  let p0 := {| module_state := b.1; server_db := None; listening := false;
               exited := false; store := st |} in
  let p1 :=
    match b.2 with
    | Fulfilled database =>
        {| module_state := b.1; server_db := database; listening := true;
           exited := false;
           store := (run (initializeAdmin_guarded database e) st).2 |}
    | Rejected =>
        {| module_state := b.1; server_db := None; listening := false;
           exited := true; store := st |}
    | Suspended _ => p0
    end in
  let a' := settle outs (module_state p1, a.2) in
  match a'.2 with
  | Fulfilled database =>
      {| module_state := a'.1; server_db := database; listening := listening p1;
         exited := exited p1; store := store p1 |}
  | Rejected =>
      {| module_state := a'.1; server_db := server_db p1; listening := listening p1;
         exited := true; store := store p1 |}
  | Suspended _ =>
      {| module_state := a'.1; server_db := server_db p1; listening := listening p1;
         exited := exited p1; store := store p1 |}
  end.

End Startup.

(** ** A concrete platform, for running the handlers on examples *)

Module Node.

Definition is_hex (a : ascii) : bool :=
  let n := nat_of_ascii a in
  ((48 <=? n) && (n <=? 57) || (65 <=? n) && (n <=? 70)
   || (97 <=? n) && (n <=? 102))%nat.

Definition lower (a : ascii) : ascii :=
  let n := nat_of_ascii a in
  if ((65 <=? n) && (n <=? 70))%nat then ascii_of_nat (n + 32) else a.

(** The driver's constructor on a string of 24 hexadecimal digits, in upper
    or lower case. Some versions of the driver also take any string of 12
    bytes, which this instance leaves out; on every other string every
    version throws. *)
Definition hex_ObjectId (s : string) : option ObjectId :=
  let l := list_ascii_of_string s in
  if ((length l =? 24)%nat && forallb is_hex l)
  then Some (Oid (string_of_list_ascii (map lower l)))
  else None.

(** A stand-in for bcrypt: the salt is kept in front of the password. *)
Definition toy_hash (salt password : string) : string :=
  salt +:+ "$" +:+ password.

Fixpoint after_dollar (h : string) : string :=
  match h with
  | EmptyString => EmptyString
  | String a h' => if bool_decide (a = "$"%char) then h' else after_dollar h'
  end.

Definition toy_compare (password h : string) : bool :=
  bool_decide (after_dollar h = password).

(** The members that [{}] inherits in Node: [constructor] is the function
    [Object], [__proto__] the prototype itself, the others are functions
    that carry their own name; none has an [email]. *)
Definition inherited_functions : list string :=
  ["__defineGetter__"; "__defineSetter__"; "hasOwnProperty";
   "__lookupGetter__"; "__lookupSetter__"; "isPrototypeOf";
   "propertyIsEnumerable"; "toString"; "valueOf"; "toLocaleString"].

Definition prototype (k : string) : option doc :=
  if bool_decide (k = "constructor") then Some {[ "name" := VStr "Object" ]}
  else if bool_decide (k ∈ inherited_functions) then Some {[ "name" := VStr k ]}
  else if bool_decide (k = "__proto__") then Some ∅
  else None.

#[global] Instance platform : Platform := {|
  bcrypt_hash := toy_hash;
  bcrypt_compare := toy_compare;
  ObjectId_new := hex_ObjectId;
  Number_toString := pretty;
  Date_toString := pretty;
  Object_prototype := prototype;
|}.

Definition alice_id : string := "64b7f0a1c2d3e4f5a6b7c8d9".
Definition admin_id : string := "64b7f0a1c2d3e4f5a6b7c8da".
Definition cv_id : string := "64b7f0a1c2d3e4f5a6b7c8e1".
Definition cv2_id : string := "64b7f0a1c2d3e4f5a6b7c8e2".

Definition alice : doc :=
  {[ "_id" := VOid (Oid alice_id); "name" := VStr "Alice";
     "email" := VStr "alice@example.com"; "password" := VStr "s1$secret";
     "role" := VStr "user"; "createdAt" := VDate 1000 ]}.

Definition admin : doc :=
  {[ "_id" := VOid (Oid admin_id); "name" := VStr "Admin User";
     "email" := VStr "admin@resumehub.com"; "password" := VStr "s0$admin123";
     "role" := VStr "admin"; "createdAt" := VDate 900 ]}.

Definition cv : doc :=
  {[ "_id" := VOid (Oid cv_id); "userId" := VStr alice_id;
     "fileName" := VStr "cv.pdf"; "description" := VStr "first";
     "fileContent" := VStr "JVBERi0="; "uploadedAt" := VDate 2000 ]}.

Definition cv2 : doc :=
  {[ "_id" := VOid (Oid cv2_id); "userId" := VStr alice_id;
     "fileName" := VStr "cv2.pdf"; "description" := VStr "second";
     "fileContent" := VStr "JVBERi1="; "uploadedAt" := VDate 3000;
     "archived" := VBool true; "archivedAt" := VDate 3500 ]}.

Definition db0 : Store := {| users := [admin; alice]; resumes := [cv; cv2] |}.

(** An identifier of the right form that no user and no resume has. *)
Definition nobody_id : string := "64b7f0a1c2d3e4f5a6b7c8aa".

(** The identifier of [alice] in upper case: the same ObjectId for the
    driver, another string for a comparison with [userId]. *)
Definition ALICE_ID : string := "64B7F0A1C2D3E4F5A6B7C8D9".

Definition env0 : Env :=
  {| now := 5000; fresh := Oid "64b7f0a1c2d3e4f5a6b7c8ff"; salt := "s2" |}.

(** [db0] after [alice] has been deleted behind the server's back, and a
    database with no admin. *)
Definition db1 : Store := {| users := [admin]; resumes := [cv; cv2] |}.
Definition db2 : Store := {| users := [alice]; resumes := [cv; cv2] |}.

Definition env1 : Env :=
  {| now := 6000; fresh := Oid "64b7f0a1c2d3e4f5a6b7c900"; salt := "s3" |}.

Definition config0 : Config := {| MONGODB_URI := None; DB_NAME := Some "" |}.
Definition config1 : Config :=
  {| MONGODB_URI := Some "localhost"; DB_NAME := None |}.

(** A stand-in for the driver's reading of a connection string: a scheme
    of MongoDB with something after it. *)
Definition mongodb_scheme (s : string) : bool :=
  (String.prefix "mongodb://" s && (10 <? String.length s)%nat)
  || (String.prefix "mongodb+srv://" s && (14 <? String.length s)%nat).

End Node.

(** ** Notions of the specification *)

Section Notions.
Context {P : Platform}.

(** The identifier [id] of a route names the document [d]. *)
Definition names (id : string) (d : doc) : Prop :=
  ∃ oid, ObjectId_new id = Some oid ∧ d !! "_id" = Some (VOid oid).

(** The document carries no archive marker. *)
Definition never_archived (d : doc) : Prop :=
  d !! "archived" = None ∧ d !! "archivedAt" = None.

(** The resume [r] belongs to the user of identifier [id]: the test of
    the listings and of the cascade. *)
Definition owned_by (id : string) (r : doc) : Prop :=
  r !! "userId" = Some (VStr id).

#[global] Instance owned_by_dec (id : string) (r : doc) :
  Decision (owned_by id r).
Proof. unfold owned_by. apply _. Defined.

(** No two documents of a collection share their [_id]: the store sees
    to it. *)
Definition unique_ids (c : list doc) : Prop :=
  NoDup (map (λ d, d !! "_id") c).

(** No two users share their email, a missing email counting as [null]:
    the unique index of [db.js]. *)
Definition unique_emails (c : list doc) : Prop :=
  NoDup (map (index_key "email") c).

(** The documents of an answer, and what it is for one of them to carry
    no [password] field. *)
Definition docs_of (resp : Response) : list doc :=
  match body resp with
  | JObj d => [d]
  | JArr l => l
  end.

Definition no_password (d : doc) : Prop := d !! "password" = None.

(** Serving the request [p] on [st] gives an answer, no document of the
    answer has a [password] field, and no resume of the store left behind
    has one. *)
Definition discreet (p : Prog Response) (st : Store) : Prop :=
  ∃ resp st', run p st = (Some resp, st')
              ∧ Forall no_password (docs_of resp)
              ∧ Forall no_password (resumes st').

End Notions.

(** ** Further notions *)

Section Further.
Context {P : Platform}.

(** The record that registration stores. *)
Definition new_user (e : Env) (name email password : string) : doc :=
  <["_id" := VOid (fresh e)]>
    {[ "name" := VStr name; "email" := VStr email;
       "password" := VStr (bcrypt_hash (salt e) password);
       "role" := VStr "user"; "createdAt" := VDate (now e) ]}.

(** The keys the store is keeping: [_id] in both collections, [email] in
    [users]. *)
Definition well_keyed (st : Store) : Prop :=
  unique_ids (users st) ∧ unique_ids (resumes st) ∧ unique_emails (users st).

(** The collections a route may write to, by the handler's calls of
    [insertOne], [updateOne], [deleteOne] and [deleteMany]. *)
Definition writes_to (req : Request) (c : coll) : bool :=
  match req, c with
  | POST_users_register _ _ _, Users => true
  | POST_admin_create _ _ _, Users => true
  | DELETE_admin_users _, _ => true
  | POST_resumes _ _ _ _, Resumes => true
  | PUT_resumes_archive _, Resumes => true
  | DELETE_resumes _, Resumes => true
  | PUT_admin_resumes_archive _, Resumes => true
  | DELETE_admin_resumes _, Resumes => true
  | PUT_resumes_restore _, Resumes => true
  | _, _ => false
  end.

(** [a] does not come before [b] in the order of BSON. *)
Definition at_least (a b : option value) : Prop := bson_compare a b ≠ Lt.

(** The documents of [l] are in descending order of their field [k]. *)
Definition descending (k : string) (l : list doc) : Prop :=
  StronglySorted (λ x y, at_least (x !! k) (y !! k)) l.

(** In [l], of two documents that carry a date under [k], the one that
    comes first has the later date, or the same. *)
Definition latest_first (k : string) (l : list doc) : Prop :=
  ∀ i j a b ta tb, (i < j)%nat → l !! i = Some a → l !! j = Some b →
    a !! k = Some (VDate ta) → b !! k = Some (VDate tb) → (tb ≤ ta)%Z.

(** The record that saving a resume stores. *)
Definition new_resume (e : Env) (userId fileName description fileContent : value)
    : doc :=
  <["_id" := VOid (fresh e)]>
    {[ "userId" := userId; "fileName" := fileName;
       "description" := description; "fileContent" := fileContent;
       "uploadedAt" := VDate (now e) ]}.

(** The test of the handlers for an admin, [role === 'admin']. *)
Definition is_admin (u : doc) : Prop := u !! "role" = Some (VStr "admin").

#[global] Instance is_admin_dec (u : doc) : Decision (is_admin u).
Proof. unfold is_admin. apply _. Defined.

(** The admins of a collection of users. *)
Definition admins (c : list doc) : list doc :=
  List.filter (λ u, bool_decide (is_admin u)) c.

(** The admin record that is stored, with its [_id]. *)
Definition new_admin (e : Env) (name email password : string) : doc :=
  <["_id" := VOid (fresh e)]>
    (admin_doc e name email (bcrypt_hash (salt e) password)).

(** The database handle of a configuration. *)
Definition the_db (cfg : Config) : Db :=
  client_db (new_MongoClient (url cfg)) (dbName cfg).

(** The module once the connection is made. *)
Definition connected (cfg : Config) : DbModule :=
  {| client := Some (new_MongoClient (url cfg)); db := Some (the_db cfg) |}.

End Further.

(** * Properties *)

(** ** The collection operations *)

Lemma matches_id (v : value) (d : doc) :
  matches [("_id", Is v)] d = true → v ≠ VNull → d !! "_id" = Some v.
Proof.
  unfold matches, holds, field_is; simpl.
  destruct (d !! "_id") as [w|]; rewrite andb_true_r; intros H Hv.
  - apply bool_decide_eq_true in H. by subst.
  - apply bool_decide_eq_true in H. done.
Qed.

Lemma matches_field (k : string) (v : value) (d : doc) :
  d !! k = Some v → matches [(k, Is v)] d = true.
Proof.
  intros H. unfold matches, holds, field_is; simpl. rewrite H.
  by rewrite bool_decide_eq_true_2.
Qed.

Lemma matches_field_inv (k : string) (v : value) (d : doc) :
  v ≠ VNull → matches [(k, Is v)] d = true → d !! k = Some v.
Proof.
  unfold matches, holds, field_is; simpl. intros Hv.
  destruct (d !! k) as [w|]; rewrite andb_true_r; intros H;
    apply bool_decide_eq_true in H; by subst.
Qed.

Lemma findOne_None (q : query) (c : list doc) :
  findOne q c = None ↔ ∀ d, d ∈ c → matches q d = false.
Proof.
  unfold findOne. split.
  - intros H d Hd. apply list_elem_of_In in Hd.
    by apply (find_none _ _ H).
  - intros H. induction c as [|d c IH]; [done|]. simpl.
    rewrite (H d) by left. apply IH. intros d' Hd'. apply H. by right.
Qed.

Lemma findOne_Some (q : query) (c : list doc) (d : doc) :
  findOne q c = Some d → d ∈ c ∧ matches q d = true.
Proof.
  intros H. apply find_some in H as [H1 H2]. by apply list_elem_of_In in H1.
Qed.

(** The first match splits the collection. *)
Lemma findOne_split (q : query) (c : list doc) (d : doc) :
  findOne q c = Some d →
  ∃ l1 l2, c = l1 ++ d :: l2 ∧ findOne q l1 = None ∧ matches q d = true.
Proof.
  unfold findOne. induction c as [|x c IH]; [done|]. simpl.
  destruct (matches q x) eqn:Hx.
  - intros [= ->]. by exists [], c.
  - intros H. destruct (IH H) as (l1 & l2 & -> & H1 & H2).
    exists (x :: l1), l2. simpl. by rewrite Hx.
Qed.

Lemma updateOne_miss (q : query) (u : update) (c : list doc) :
  findOne q c = None → updateOne q u c = (c, 0%nat).
Proof.
  unfold findOne. induction c as [|x c IH]; [done|]. simpl.
  destruct (matches q x); [done|]. intros H. by rewrite (IH H).
Qed.

Lemma updateOne_hit (q : query) (u : update) (l1 l2 : list doc) (d : doc) :
  findOne q l1 = None → matches q d = true →
  updateOne q u (l1 ++ d :: l2) = (l1 ++ apply_update u d :: l2, 1%nat).
Proof.
  unfold findOne. intros H Hd. induction l1 as [|x l1 IH]; simpl.
  - by rewrite Hd.
  - simpl in H. destruct (matches q x); [done|]. by rewrite (IH H).
Qed.

Lemma deleteOne_miss (q : query) (c : list doc) :
  findOne q c = None → deleteOne q c = (c, 0%nat).
Proof.
  unfold findOne. induction c as [|x c IH]; [done|]. simpl.
  destruct (matches q x); [done|]. intros H. by rewrite (IH H).
Qed.

Lemma deleteOne_hit (q : query) (l1 l2 : list doc) (d : doc) :
  findOne q l1 = None → matches q d = true →
  deleteOne q (l1 ++ d :: l2) = (l1 ++ l2, 1%nat).
Proof.
  unfold findOne. intros H Hd. induction l1 as [|x l1 IH]; simpl.
  - by rewrite Hd.
  - simpl in H. destruct (matches q x); [done|]. by rewrite (IH H).
Qed.

Lemma findOne_app_hit (q : query) (l1 l2 : list doc) (d : doc) :
  findOne q l1 = None → matches q d = true → findOne q (l1 ++ d :: l2) = Some d.
Proof.
  unfold findOne. intros H Hd. induction l1 as [|x l1 IH]; simpl.
  - by rewrite Hd.
  - simpl in H. destruct (matches q x); [done|]. by apply IH.
Qed.

Lemma put_collection (c : coll) (st : Store) : put c (collection c st) st = st.
Proof. by destruct c, st. Qed.

Lemma insert_desc_perm (k : string) (d : doc) (c : list doc) :
  insert_desc k d c ≡ₚ d :: c.
Proof.
  induction c as [|x c IH]; simpl; [done|].
  destruct (bson_compare _ _); try done.
  rewrite IH. apply Permutation_swap.
Qed.

(** Sorting returns the documents it was given. *)
Lemma sort_desc_perm (k : string) (c : list doc) : sort_desc k c ≡ₚ c.
Proof.
  induction c as [|x c IH]; simpl; [done|].
  unfold sort_desc in *. simpl. by rewrite insert_desc_perm, IH.
Qed.

Lemma set_field_other (k k' : string) (e : option value) (d : doc) :
  k ≠ k' → set_field k e d !! k' = d !! k'.
Proof.
  intros Hk. destruct e; simpl; by rewrite ?lookup_insert_ne, ?lookup_delete_ne.
Qed.

Lemma add_id_other (k : string) (d : doc) : k ≠ "id" → add_id d !! k = d !! k.
Proof. intros Hk. by apply set_field_other. Qed.

Lemma matches_active (userId : string) (r : doc) :
  matches [("userId", Is (VStr userId)); ("archived", Ne (VBool true))] r = true
  ↔ r !! "userId" = Some (VStr userId) ∧ r !! "archived" ≠ Some (VBool true).
Proof.
  unfold matches, holds, field_is; simpl. rewrite andb_true_r, andb_true_iff.
  destruct (r !! "userId") as [u|], (r !! "archived") as [a|];
    rewrite ?negb_true_iff, ?bool_decide_eq_true, ?bool_decide_eq_false;
    naive_solver.
Qed.

Lemma matches_archived (userId : string) (r : doc) :
  matches [("userId", Is (VStr userId)); ("archived", Is (VBool true))] r = true
  ↔ r !! "userId" = Some (VStr userId) ∧ r !! "archived" = Some (VBool true).
Proof.
  unfold matches, holds, field_is; simpl. rewrite andb_true_r, andb_true_iff.
  destruct (r !! "userId") as [u|], (r !! "archived") as [a|];
    rewrite ?bool_decide_eq_true; naive_solver.
Qed.

Lemma elem_of_find (q : query) (c : list doc) (d : doc) :
  d ∈ find q c ↔ d ∈ c ∧ matches q d = true.
Proof. unfold find. by rewrite !list_elem_of_In, filter_In. Qed.

(** The handlers are unfolded down to the collection operations, which the
    lemmas above describe. *)
Arguments findOne : simpl never.
Arguments find : simpl never.
Arguments deleteMany : simpl never.
Arguments insertOne : simpl never.
Arguments sort_desc : simpl never.
Arguments project_out : simpl never.

Section Lifecycle.
Context {P : Platform}.

Lemma unnamed_findOne (st : Store) (id : string) (oid : ObjectId) :
  (∀ r, r ∈ resumes st → ¬ names id r) → ObjectId_new id = Some oid →
  findOne [("_id", Is (VOid oid))] (resumes st) = None.
Proof.
  intros H Hid. apply findOne_None. intros d Hd.
  destruct (matches _ d) eqn:Hm; [|done].
  apply matches_id in Hm; [|done]. destruct (H d Hd). by exists oid.
Qed.

(** C6, as the code has it: an identifier that names no resume makes
    Archive, Restore and PermanentDelete fail and leaves the store as it
    was; the failure is NotFound when the driver accepts the identifier as
    an ObjectId, and the handler's status-500 answer when the ObjectId
    constructor throws. *)
Theorem unknown_resume_id (st : Store) (e : Env) (id : string) :
  (∀ r, r ∈ resumes st → ¬ names id r) →
  match ObjectId_new id with
  | Some _ =>
      run (archiveResume e id) st
        = (Some (json NotFound (message "Resume not found")), st)
      ∧ run (restoreResume id) st
        = (Some (json NotFound (message "Resume not found")), st)
      ∧ run (deleteResume id) st
        = (Some (json NotFound (message "Resume not found")), st)
  | None =>
      run (archiveResume e id) st
        = (Some (json StoreFailure (message "Server error while archiving resume")), st)
      ∧ run (restoreResume id) st
        = (Some (json StoreFailure (message "Server error while restoring resume")), st)
      ∧ run (deleteResume id) st
        = (Some (json StoreFailure (message "Server error while deleting resume")), st)
  end.
Proof.
  intros H. unfold archiveResume, restoreResume, deleteResume, new_ObjectId.
  destruct (ObjectId_new id) as [oid|] eqn:Hid; [|done].
  pose proof (unnamed_findOne st id oid H Hid) as Hf.
  cbn. rewrite !(updateOne_miss _ _ _ Hf), (deleteOne_miss _ _ Hf). cbn.
  by destruct st.
Qed.

(** What an update by identifier answers when it finds its document. *)
Lemma run_archive_hit (st : Store) (e : Env) (id : string) (oid : ObjectId)
    (l1 l2 : list doc) (r : doc) :
  ObjectId_new id = Some oid → resumes st = l1 ++ r :: l2 →
  findOne [("_id", Is (VOid oid))] l1 = None →
  matches [("_id", Is (VOid oid))] r = true →
  run (archiveResume e id) st
    = (Some (json 200 (message "Resume archived successfully")),
       put Resumes
         (l1 ++ <["archived" := VBool true]>
                  (<["archivedAt" := VDate (now e)]> r) :: l2) st).
Proof.
  intros Hid Hc Hl1 Hm. unfold archiveResume, new_ObjectId. rewrite Hid.
  cbn. by rewrite Hc, (updateOne_hit _ _ _ _ _ Hl1 Hm).
Qed.

Lemma run_restore_hit (st : Store) (id : string) (oid : ObjectId)
    (l1 l2 : list doc) (r : doc) :
  ObjectId_new id = Some oid → resumes st = l1 ++ r :: l2 →
  findOne [("_id", Is (VOid oid))] l1 = None →
  matches [("_id", Is (VOid oid))] r = true →
  run (restoreResume id) st
    = (Some (json 200 (message "Resume restored successfully")),
       put Resumes (l1 ++ delete "archived" (delete "archivedAt" r) :: l2) st).
Proof.
  intros Hid Hc Hl1 Hm. unfold restoreResume, new_ObjectId. rewrite Hid.
  cbn. by rewrite Hc, (updateOne_hit _ _ _ _ _ Hl1 Hm).
Qed.

Lemma unset_never_archived (r : doc) :
  never_archived r → apply_update (Unset ["archived"; "archivedAt"]) r = r.
Proof.
  intros [H1 H2]. simpl. by rewrite (delete_id _ _ H2), (delete_id _ _ H1).
Qed.

(** C7: Restore on a resume that exists and carries no archive marker
    succeeds and changes nothing, in that record or elsewhere. *)
Theorem restore_never_archived (st : Store) (id : string) (oid : ObjectId)
    (r : doc) :
  ObjectId_new id = Some oid →
  findOne [("_id", Is (VOid oid))] (resumes st) = Some r →
  never_archived r →
  run (restoreResume id) st
    = (Some (json 200 (message "Resume restored successfully")), st).
Proof.
  intros Hid Hr Hn. unfold restoreResume, new_ObjectId. rewrite Hid.
  destruct (findOne_split _ _ _ Hr) as (l1 & l2 & Hc & Hl1 & Hm).
  cbn. rewrite Hc, (updateOne_hit _ _ _ _ _ Hl1 Hm), unset_never_archived by done.
  simpl. rewrite <- Hc. by destruct st.
Qed.

(** C1: Archive and then Restore on the identifier of a resume both
    succeed and leave that record with neither [archived] nor
    [archivedAt], every other field as it was and every other document
    untouched; if the resume had never been archived, the store is the one
    before the two calls. *)
Theorem archive_then_restore (st : Store) (e : Env) (id : string)
    (oid : ObjectId) (r : doc) :
  ObjectId_new id = Some oid →
  findOne [("_id", Is (VOid oid))] (resumes st) = Some r →
  let a := run (archiveResume e id) st in
  let b := run (restoreResume id) a.2 in
  let r' := delete "archived" (delete "archivedAt" r) in
  a.1 = Some (json 200 (message "Resume archived successfully"))
  ∧ b.1 = Some (json 200 (message "Resume restored successfully"))
  ∧ r' !! "archived" = None ∧ r' !! "archivedAt" = None
  ∧ (∀ k, k ≠ "archived" → k ≠ "archivedAt" → r' !! k = r !! k)
  ∧ findOne [("_id", Is (VOid oid))] (resumes b.2) = Some r'
  ∧ (∃ l1 l2, resumes st = l1 ++ r :: l2 ∧ resumes b.2 = l1 ++ r' :: l2)
  ∧ users b.2 = users st
  ∧ (never_archived r → b.2 = st).
Proof.
  intros Hid Hr.
  destruct (findOne_split _ _ _ Hr) as (l1 & l2 & Hc & Hl1 & Hm).
  assert (Hm' : ∀ x, matches [("_id", Is (VOid oid))]
                       (<["archived" := VBool true]> (<["archivedAt" := x]> r)) = true).
  { intros x. apply matches_field. rewrite !lookup_insert_ne by done.
    by apply matches_id in Hm. }
  assert (Hr' : delete "archived" (delete "archivedAt"
                  (<["archived" := VBool true]> (<["archivedAt" := VDate (now e)]> r)))
                = delete "archived" (delete "archivedAt" r)).
  { apply map_eq. intros k.
    destruct (decide (k = "archived")) as [->|]; [by rewrite !lookup_delete_eq|].
    rewrite !(lookup_delete_ne _ "archived") by done.
    destruct (decide (k = "archivedAt")) as [->|]; [by rewrite !lookup_delete_eq|].
    rewrite !(lookup_delete_ne _ "archivedAt") by done.
    by rewrite !lookup_insert_ne. }
  cbv zeta. rewrite (run_archive_hit st e id oid l1 l2 r) by done.
  cbn [fst snd].
  rewrite (run_restore_hit (put Resumes _ st) id oid l1 l2
             (<["archived" := VBool true]> (<["archivedAt" := VDate (now e)]> r))
             Hid eq_refl Hl1 (Hm' _)).
  cbn. rewrite Hr'.
  split_and!; try done.
  - by rewrite lookup_delete_eq.
  - by rewrite lookup_delete_ne, lookup_delete_eq.
  - intros k H1 H2. by rewrite !lookup_delete_ne.
  - apply findOne_app_hit; [done|]. apply matches_field.
    rewrite !lookup_delete_ne by done. by apply matches_id in Hm.
  - by exists l1, l2.
  - intros [H1 H2]. rewrite (delete_id _ _ H2), (delete_id _ _ H1), <- Hc.
    by destruct st.
Qed.

(** C2: the listing of a user's resumes holds no resume whose [archived]
    is [true], the listing of the archived ones holds only resumes whose
    [archived] is [true], and a resume of the user with no [archived] field
    is in the first listing and not in the second. Both listings are the
    store's documents (with their [id]) and neither changes the store. *)
Theorem listings_by_archived_flag (st : Store) (userId : string) :
  ∃ active archived,
    run (getUserResumes userId) st = (Some (json_list 200 active), st)
    ∧ run (getArchivedResumes userId) st = (Some (json_list 200 archived), st)
    ∧ (∀ d, d ∈ active → d !! "archived" ≠ Some (VBool true))
    ∧ (∀ d, d ∈ archived → d !! "archived" = Some (VBool true))
    ∧ (∀ d, d ∈ active ↔
            ∃ r, r ∈ resumes st ∧ d = add_id r
                 ∧ r !! "userId" = Some (VStr userId)
                 ∧ r !! "archived" ≠ Some (VBool true))
    ∧ (∀ d, d ∈ archived ↔
            ∃ r, r ∈ resumes st ∧ d = add_id r
                 ∧ r !! "userId" = Some (VStr userId)
                 ∧ r !! "archived" = Some (VBool true))
    ∧ (∀ r, r ∈ resumes st → r !! "userId" = Some (VStr userId) →
            r !! "archived" = None → add_id r ∈ active ∧ add_id r ∉ archived).
Proof.
  eexists _, _. split; [reflexivity|]. split; [reflexivity|].
  assert (Ha : ∀ d, d ∈ map add_id (sort_desc "uploadedAt"
                 (find [("userId", Is (VStr userId)); ("archived", Ne (VBool true))]
                       (resumes st))) ↔
            ∃ r, r ∈ resumes st ∧ d = add_id r
                 ∧ r !! "userId" = Some (VStr userId)
                 ∧ r !! "archived" ≠ Some (VBool true)).
  { intros d. rewrite list_elem_of_fmap. setoid_rewrite sort_desc_perm.
    setoid_rewrite elem_of_find. setoid_rewrite matches_active. naive_solver. }
  assert (Hb : ∀ d, d ∈ map add_id (sort_desc "archivedAt"
                 (find [("userId", Is (VStr userId)); ("archived", Is (VBool true))]
                       (resumes st))) ↔
            ∃ r, r ∈ resumes st ∧ d = add_id r
                 ∧ r !! "userId" = Some (VStr userId)
                 ∧ r !! "archived" = Some (VBool true)).
  { intros d. rewrite list_elem_of_fmap. setoid_rewrite sort_desc_perm.
    setoid_rewrite elem_of_find. setoid_rewrite matches_archived. naive_solver. }
  cbn. split_and!; [| | exact Ha | exact Hb |].
  - intros d (r & _ & -> & _ & H)%Ha. by rewrite add_id_other.
  - intros d (r & _ & -> & _ & H)%Hb. by rewrite add_id_other.
  - intros r Hr Hu Hn. split.
    + apply Ha. exists r. split_and!; try done. by rewrite Hn.
    + intros (r' & _ & Heq & _ & H)%Hb.
      assert (add_id r !! "archived" = add_id r' !! "archived") as Hx by by rewrite Heq.
      rewrite !add_id_other in Hx by done. congruence.
Qed.

End Lifecycle.

Section Integrity.
Context {P : Platform}.

Lemma matches_owned (id : string) (r : doc) :
  matches [("userId", Is (VStr id))] r = bool_decide (owned_by id r).
Proof.
  unfold matches, holds, field_is; simpl. rewrite andb_true_r.
  destruct (r !! "userId") as [v|] eqn:Hv.
  - apply bool_decide_ext. unfold owned_by. rewrite Hv. naive_solver.
  - symmetry. apply bool_decide_eq_false. unfold owned_by. by rewrite Hv.
Qed.

Lemma deleteMany_owned (id : string) (c : list doc) :
  deleteMany [("userId", Is (VStr id))] c
  = (List.filter (λ r, negb (bool_decide (owned_by id r))) c,
     length (List.filter (λ r, bool_decide (owned_by id r)) c)).
Proof.
  unfold deleteMany. f_equal; [|f_equal]; apply filter_ext; intros r;
    by rewrite matches_owned.
Qed.

(** Once the first document of a given [_id] is taken out, none of
    that [_id] is left. *)
Lemma unique_ids_gone (oid : ObjectId) (l1 l2 : list doc) (u : doc) :
  unique_ids (l1 ++ u :: l2) →
  findOne [("_id", Is (VOid oid))] l1 = None →
  u !! "_id" = Some (VOid oid) →
  ∀ d, d ∈ l1 ++ l2 → d !! "_id" ≠ Some (VOid oid).
Proof.
  unfold unique_ids. intros Hnd Hl1 Hu d Hd Heq.
  apply elem_of_app in Hd as [Hd|Hd].
  - rewrite findOne_None in Hl1. specialize (Hl1 d Hd).
    by rewrite (matches_field _ _ _ Heq) in Hl1.
  - rewrite map_app in Hnd. apply NoDup_app in Hnd as (_ & _ & Hnd).
    simpl in Hnd. apply NoDup_cons in Hnd as [Hnd _]. apply Hnd.
    rewrite Hu, <- Heq. apply list_elem_of_fmap. by exists d.
Qed.

(** C4: DeleteUserCascade on the identifier of a user whose role is
    [admin] answers Forbidden and leaves both collections as they were. *)
Theorem delete_admin_forbidden (st : Store) (id : string) (oid : ObjectId)
    (u : doc) :
  ObjectId_new id = Some oid →
  findOne [("_id", Is (VOid oid))] (users st) = Some u →
  u !! "role" = Some (VStr "admin") →
  run (deleteUser id) st
    = (Some (json Forbidden (message "Cannot delete admin users")), st).
Proof.
  intros Hid Hu Hrole. unfold deleteUser, new_ObjectId. rewrite Hid. cbn.
  rewrite Hu. cbn. by rewrite bool_decide_eq_true_2.
Qed.

(** X26. What the cascade does, in terms of the identifier as the request
    spells it: on an identifier that the driver resolves to a user who is
    not an admin, it succeeds, deletes the resumes whose [userId] is that
    very string and reports their number [N], and deletes the user record;
    afterwards no user of that [_id] and no resume with that [userId] is in
    the store, and the other users and resumes are all still there. *)
Theorem delete_user_cascade (st : Store) (id : string) (oid : ObjectId)
    (u : doc) (N : nat) :
  ObjectId_new id = Some oid →
  findOne [("_id", Is (VOid oid))] (users st) = Some u →
  u !! "role" ≠ Some (VStr "admin") →
  unique_ids (users st) →
  length (List.filter (λ r, bool_decide (owned_by id r)) (resumes st)) = N →
  ∃ st',
    run (deleteUser id) st
      = (Some (json 200
                 {[ "message" := VStr "User and all associated resumes deleted successfully";
                    "deletedResumes" := VNum (Z.of_nat N) ]}), st')
    ∧ (∀ d, d ∈ users st' → d !! "_id" ≠ Some (VOid oid))
    ∧ (∀ r, r ∈ resumes st' → ¬ owned_by id r)
    ∧ resumes st' = List.filter (λ r, negb (bool_decide (owned_by id r))) (resumes st)
    ∧ (∃ l1 l2, users st = l1 ++ u :: l2 ∧ users st' = l1 ++ l2).
Proof.
  intros Hid Hu Hrole Hnd HN.
  destruct (findOne_split _ _ _ Hu) as (l1 & l2 & Hc & Hl1 & Hm).
  unfold deleteUser, new_ObjectId. rewrite Hid. cbn.
  rewrite Hu. cbn. rewrite bool_decide_eq_false_2 by done. cbn.
  rewrite Hc, (deleteOne_hit _ _ _ _ Hl1 Hm). cbn.
  rewrite deleteMany_owned. cbn [fst snd]. rewrite HN.
  eexists. split; [reflexivity|]. cbn. split_and!.
  - rewrite Hc in Hnd. apply (unique_ids_gone oid l1 l2 u Hnd Hl1).
    by apply matches_id in Hm.
  - intros r Hr%list_elem_of_In%filter_In. destruct Hr as [_ Hr].
    by apply negb_true_iff, bool_decide_eq_false in Hr.
  - done.
  - by exists l1, l2.
Qed.

Lemma none_owned_left (id : string) (c : list doc) :
  List.filter (λ r, bool_decide (owned_by id r))
    (List.filter (λ r, negb (bool_decide (owned_by id r))) c) = [].
Proof.
  induction c as [|r c IH]; [done|]. simpl.
  destruct (bool_decide (owned_by id r)) eqn:Hr; simpl; [done|].
  by rewrite Hr.
Qed.

(** C9: in DeleteUserCascade the resumes of the user are deleted by the
    second awaited operation, while the user record is still in place; if
    the user delete that follows then finds no record, the answer is
    NotFound and nothing is put back. Two such requests in flight
    together show it: one of them answers NotFound although the resumes
    are gone from the store. *)
Theorem cascade_not_atomic (st : Store) (id : string) (oid : ObjectId)
    (u : doc) :
  ObjectId_new id = Some oid →
  findOne [("_id", Is (VOid oid))] (users st) = Some u →
  u !! "role" ≠ Some (VStr "admin") →
  unique_ids (users st) →
  let remaining := List.filter (λ r, negb (bool_decide (owned_by id r))) (resumes st) in
  let s1 := step (deleteUser id) st in
  let s2 := step s1.1 s1.2 in
  s1.2 = st
  ∧ s2.2 = put Resumes remaining st
  ∧ (∀ st3, findOne [("_id", Is (VOid oid))] (users st3) = None →
            run s2.1 st3 = (Some (json NotFound (message "User not found")), st3))
  ∧ ∃ st',
      interleave [0; 1; 1; 0; 0; 1]%nat [deleteUser id; deleteUser id] st
      = ([Ret (json 200
                 {[ "message" := VStr "User and all associated resumes deleted successfully";
                    "deletedResumes" := VNum 0 ]});
          Ret (json NotFound (message "User not found"))], st')
      ∧ resumes st' = remaining
      ∧ ((∃ r, r ∈ resumes st ∧ owned_by id r) → resumes st' ≠ resumes st).
Proof.
  intros Hid Hu Hrole Hnd.
  destruct (findOne_split _ _ _ Hu) as (l1 & l2 & Hc & Hl1 & Hm).
  unfold deleteUser, new_ObjectId. rewrite Hid. cbn.
  rewrite Hu. cbn. rewrite bool_decide_eq_false_2 by done. cbn.
  assert (Hgone : findOne [("_id", Is (VOid oid))] (l1 ++ l2) = None).
  { apply findOne_None. intros d Hd.
    destruct (matches _ d) eqn:Hd'; [|done]. apply matches_id in Hd'; [|done].
    rewrite Hc in Hnd.
    destruct (unique_ids_gone oid l1 l2 u Hnd Hl1 (matches_id _ _ Hm ltac:(done)) d Hd Hd'). }
  rewrite !deleteMany_owned. cbn [fst snd]. rewrite none_owned_left.
  rewrite Hc, (deleteOne_hit _ _ _ _ Hl1 Hm). cbn [fst snd].
  rewrite (deleteOne_miss _ _ Hgone). cbn.
  split_and!; try done.
  - intros st3 H3. rewrite (deleteOne_miss _ _ H3). cbn [fst snd].
    rewrite bool_decide_eq_true_2 by done. by destruct st3.
  - eexists. split; [reflexivity|]. cbn. split; [|intros (r & Hr & Ho) Heq].
    + induction (resumes st) as [|x c IH]; [done|]. simpl.
      destruct (bool_decide (owned_by id x)) eqn:Hx; simpl; [done|].
      by rewrite Hx, IH.
    + assert (Hin : r ∈ List.filter (λ r, negb (bool_decide (owned_by id r)))
                      (List.filter (λ r, negb (bool_decide (owned_by id r))) (resumes st))).
      { rewrite Heq. done. }
      apply list_elem_of_In, filter_In in Hin as [_ Hin].
      by rewrite bool_decide_eq_true_2 in Hin.
Qed.

Lemma unique_emails_findOne (c : list doc) (u : doc) (email : string) :
  unique_emails c → u ∈ c → u !! "email" = Some (VStr email) →
  findOne [("email", Is (VStr email))] c = Some u.
Proof.
  unfold unique_emails, findOne. intros Hnd Hu He.
  induction c as [|x c IH]; [by apply elem_of_nil in Hu|].
  cbn [List.find map] in *. apply NoDup_cons in Hnd as [Hx Hnd].
  destruct (matches [("email", Is (VStr email))] x) eqn:Hm.
  - apply elem_of_cons in Hu as [->|Hu]; [done|].
    apply matches_field_inv in Hm; [|done]. destruct Hx.
    apply list_elem_of_fmap. exists u. split; [|done].
    unfold index_key. by rewrite Hm, He.
  - apply elem_of_cons in Hu as [->|Hu]; [|by apply IH].
    by rewrite (matches_field _ _ _ He) in Hm.
Qed.

(** C5: Authenticate succeeds exactly when a user of that email exists and
    bcrypt verifies the password against its stored hash; an unknown email
    and a wrong password get one and the same answer, Unauthorized with
    one message; the record returned on success has no [password] field.
    The store is not changed. *)
Theorem login_outcome (st : Store) (email password : string) :
  unique_emails (users st) →
  ∃ resp,
    run (login email password) st = (Some resp, st)
    ∧ (status resp = 200 ↔
       ∃ u h, u ∈ users st ∧ u !! "email" = Some (VStr email)
              ∧ u !! "password" = Some (VStr h)
              ∧ bcrypt_compare password h = true)
    ∧ ((∀ u, u ∈ users st → u !! "email" ≠ Some (VStr email)) →
       resp = json Unauthorized (message "Invalid email or password"))
    ∧ (∀ u h, u ∈ users st → u !! "email" = Some (VStr email) →
              u !! "password" = Some (VStr h) →
              bcrypt_compare password h = false →
              resp = json Unauthorized (message "Invalid email or password"))
    ∧ (status resp = 200 → ∃ d, body resp = JObj d ∧ d !! "password" = None).
Proof.
  intros Hnd. unfold login. cbn.
  destruct (findOne _ (users st)) as [u|] eqn:Hu; cbn.
  - apply findOne_Some in Hu as Hu'. destruct Hu' as [Hin Hm].
    apply matches_field_inv in Hm; [|done].
    assert (Hsame : ∀ u', u' ∈ users st → u' !! "email" = Some (VStr email) → u' = u).
    { intros u' H1 H2. pose proof (unique_emails_findOne _ _ _ Hnd H1 H2). congruence. }
    unfold compare_password. destruct (u !! "password") as [[| | |h| |]|] eqn:Hp; cbn;
      try (eexists; split; [reflexivity|]; cbn; split_and!;
           [ split; [done|]; intros (u' & h' & H1 & H2 & H3 & _);
             rewrite (Hsame u' H1 H2) in H3; congruence
           | intros H; by destruct (H u Hin)
           | intros u' h' H1 H2 H3 _; rewrite (Hsame u' H1 H2) in H3; congruence
           | done ]).
    destruct (bcrypt_compare password h) eqn:Hv; cbn;
      (eexists; split; [reflexivity|]); cbn; split_and!.
    + split; [|done]. intros _. by exists u, h.
    + intros H. by destruct (H u Hin).
    + intros u' h' H1 H2 H3 H4. rewrite (Hsame u' H1 H2) in H3. congruence.
    + intros _. eexists. split; [done|].
      rewrite set_field_other by done. apply lookup_delete_eq.
    + split; [done|]. intros (u' & h' & H1 & H2 & H3 & H4).
      rewrite (Hsame u' H1 H2) in H3. congruence.
    + done.
    + done.
    + done.
  - eexists. split; [reflexivity|]. cbn. split_and!; try done.
    split; [done|]. intros (u & h & H1 & H2 & _).
    rewrite findOne_None in Hu. specialize (Hu u H1).
    by rewrite (matches_field _ _ _ H2) in Hu.
Qed.

Lemma insertOne_fresh (unique : list string) (fresh : ObjectId) (d : doc)
    (c : list doc) :
  violates ("_id" :: unique) (with_id fresh d) c = false →
  insertOne unique fresh d c = Some (with_id fresh d, c ++ [with_id fresh d]).
Proof. unfold insertOne. by intros ->. Qed.

Lemma id_not_taken (v : value) (d : doc) (c : list doc) :
  d !! "_id" = Some v → (∀ r, r ∈ c → r !! "_id" ≠ Some v) → v ≠ VNull →
  violates ["_id"] d c = false.
Proof.
  intros Hd Hc Hv. unfold violates. simpl. rewrite orb_false_r.
  apply not_true_is_false. intros (r & Hr & Heq)%existsb_exists.
  apply list_elem_of_In in Hr. apply bool_decide_eq_true in Heq.
  unfold index_key in Heq. rewrite Hd in Heq. simpl in Heq.
  specialize (Hc r Hr). destruct (r !! "_id"); simpl in Heq; congruence.
Qed.

(** C10: saving a resume reads nothing of the [users] collection: whatever
    users there are, and so also when none has the identifier given as
    [userId], the request succeeds with status 201 and the resume is
    stored with that [userId], the [_id] being the one the driver has
    drawn, which no resume has yet. *)
Theorem save_resume_unchecked (us rs : list doc) (e : Env)
    (userId fileName description fileContent : value) :
  (∀ r, r ∈ rs → r !! "_id" ≠ Some (VOid (fresh e))) →
  let stored : doc :=
    <["_id" := VOid (fresh e)]>
      {[ "userId" := userId; "fileName" := fileName;
         "description" := description; "fileContent" := fileContent;
         "uploadedAt" := VDate (now e) ]} in
  run (saveResume e userId fileName description fileContent)
      {| users := us; resumes := rs |}
    = (Some (json 201 (<["id" := VOid (fresh e)]> stored)),
       {| users := us; resumes := rs ++ [stored] |})
  ∧ stored !! "userId" = Some userId.
Proof.
  intros Hfresh stored. split; [|done].
  unfold saveResume. cbn.
  assert (Hw : with_id (fresh e)
                 {[ "userId" := userId; "fileName" := fileName;
                    "description" := description; "fileContent" := fileContent;
                    "uploadedAt" := VDate (now e) ]} = stored) by done.
  rewrite insertOne_fresh; rewrite Hw.
  - cbn. by unfold set_field, stored; rewrite lookup_insert_eq.
  - apply (id_not_taken (VOid (fresh e))); [|done..].
    unfold stored. by rewrite lookup_insert_eq.
Qed.

End Integrity.

Section Confidentiality.
Context {P : Platform}.

Lemma updateOne_Forall (Q : doc → Prop) (q : query) (u : update) (c : list doc) :
  (∀ d, Q d → Q (apply_update u d)) → Forall Q c → Forall Q (updateOne q u c).1.
Proof.
  intros Hu. induction 1 as [|d c Hd Hc IH]; simpl; [done|].
  destruct (matches q d); simpl; constructor; auto.
Qed.

Lemma deleteOne_Forall (Q : doc → Prop) (q : query) (c : list doc) :
  Forall Q c → Forall Q (deleteOne q c).1.
Proof.
  induction 1 as [|d c Hd Hc IH]; simpl; [done|].
  destruct (matches q d); simpl; [done|]. by constructor.
Qed.

Lemma filter_Forall (Q : doc → Prop) (f : doc → bool) (c : list doc) :
  Forall Q c → Forall Q (List.filter f c).
Proof.
  induction 1 as [|d c Hd Hc IH]; simpl; [done|].
  destruct (f d); [by constructor|done].
Qed.

Lemma sort_desc_Forall (Q : doc → Prop) (k : string) (c : list doc) :
  Forall Q c → Forall Q (sort_desc k c).
Proof. by rewrite sort_desc_perm. Qed.

Lemma archive_keeps_no_password (u : update) (d : doc) :
  u = Unset ["archived"; "archivedAt"]
  ∨ (∃ t, u = Set_ [("archived", VBool true); ("archivedAt", VDate t)]) →
  no_password d → no_password (apply_update u d).
Proof.
  unfold no_password. intros [->|[t ->]] Hd; simpl.
  - by rewrite !lookup_delete_ne.
  - by rewrite !lookup_insert_ne.
Qed.

Lemma discreet_message (code : Z) (s : string) (st : Store) :
  Forall no_password (resumes st) →
  ∃ resp st', (Some (json code (message s)), st) = (Some resp, st')
              ∧ Forall no_password (docs_of resp)
              ∧ Forall no_password (resumes st').
Proof.
  intros H. eexists _, _. split; [done|]. split; [|done].
  by repeat constructor.
Qed.

Lemma register_discreet e name email password st :
  Forall no_password (resumes st) → discreet (register e name email password) st.
Proof.
  intros H. unfold discreet, register. cbn.
  destruct (findOne _ (users st)); cbn; [by apply discreet_message|].
  destruct (insertOne _ _ _ _) as [[d' c']|]; cbn; [|by apply discreet_message].
  eexists _, _. split; [done|]. split; [|done].
  repeat constructor. unfold no_password.
  rewrite set_field_other by done. apply lookup_delete_eq.
Qed.

Lemma login_discreet email password st :
  Forall no_password (resumes st) → discreet (login email password) st.
Proof.
  intros H. unfold discreet, login. cbn.
  destruct (findOne _ (users st)) as [u|]; cbn; [|by apply discreet_message].
  unfold compare_password.
  destruct (u !! "password") as [[| | |h| |]|]; cbn;
    try by apply discreet_message.
  destruct (bcrypt_compare password h); cbn; [|by apply discreet_message].
  eexists _, _. split; [done|]. split; [|done].
  repeat constructor. unfold no_password.
  rewrite set_field_other by done. apply lookup_delete_eq.
Qed.

Lemma saveResume_discreet e userId fileName description fileContent st :
  Forall no_password (resumes st) →
  discreet (saveResume e userId fileName description fileContent) st.
Proof.
  intros H. unfold discreet, saveResume. cbn.
  destruct (insertOne _ _ _ _) as [[d' c']|] eqn:Hi; cbn;
    [|by apply discreet_message].
  unfold insertOne in Hi. destruct (violates _ _ _); [done|].
  injection Hi as <- <-.
  assert (Hd : no_password (with_id (fresh e)
                 {[ "userId" := userId; "fileName" := fileName;
                    "description" := description; "fileContent" := fileContent;
                    "uploadedAt" := VDate (now e) ]})) by done.
  eexists _, _. split; [done|]. split.
  - repeat constructor; unfold no_password; by rewrite set_field_other.
  - cbn. apply Forall_app_2; [done|]. by repeat constructor.
Qed.

Lemma add_id_Forall (c : list doc) :
  Forall no_password c → Forall no_password (map add_id c).
Proof.
  intros H. apply Forall_fmap. eapply Forall_impl; [exact H|].
  intros d Hd. unfold no_password. simpl. by rewrite add_id_other.
Qed.

Lemma getUserResumes_discreet userId st :
  Forall no_password (resumes st) → discreet (getUserResumes userId) st.
Proof.
  intros H. unfold discreet, getUserResumes. cbn.
  eexists _, _. split; [done|]. split; [|done]. unfold docs_of. cbn.
  by apply add_id_Forall, sort_desc_Forall, filter_Forall.
Qed.

Lemma getArchivedResumes_discreet userId st :
  Forall no_password (resumes st) → discreet (getArchivedResumes userId) st.
Proof.
  intros H. unfold discreet, getArchivedResumes. cbn.
  eexists _, _. split; [done|]. split; [|done]. unfold docs_of. cbn.
  by apply add_id_Forall, sort_desc_Forall, filter_Forall.
Qed.

Lemma project_out_password (c : list doc) :
  Forall no_password (project_out ["password"] c).
Proof.
  unfold project_out. apply Forall_fmap, Forall_forall. intros d _.
  unfold no_password. simpl. apply lookup_delete_eq.
Qed.

Lemma getAllUsers_discreet st :
  Forall no_password (resumes st) → discreet getAllUsers st.
Proof.
  intros H. unfold discreet, getAllUsers. cbn.
  eexists _, _. split; [done|]. split; [|done]. unfold docs_of. cbn.
  apply add_id_Forall, project_out_password.
Qed.

Lemma join_user_no_password (usersMap : gmap string doc) (resume : doc) :
  no_password resume → no_password (join_user usersMap resume).
Proof.
  unfold no_password, join_user. intros H. by rewrite !set_field_other.
Qed.

Lemma getAllResumes_discreet st :
  Forall no_password (resumes st) → discreet getAllResumes st.
Proof.
  intros H. unfold discreet, getAllResumes. cbn.
  eexists _, _. split; [done|]. split; [|done]. unfold docs_of. cbn.
  apply Forall_fmap. eapply Forall_impl.
  - by apply sort_desc_Forall, filter_Forall.
  - intros d Hd. by apply join_user_no_password.
Qed.

Lemma adminStatus_discreet st :
  Forall no_password (resumes st) → discreet adminStatus st.
Proof.
  intros H. unfold discreet, adminStatus. cbn.
  eexists _, _. split; [done|]. split; [|done]. by repeat constructor.
Qed.

Lemma createAdmin_discreet e email password name st :
  Forall no_password (resumes st) → discreet (createAdmin e email password name) st.
Proof.
  intros H. unfold discreet, createAdmin. cbn.
  destruct (findOne _ (users st)); cbn; [by apply discreet_message|].
  destruct (insertOne _ _ _ _) as [[d' c']|]; cbn; [|by apply discreet_message].
  eexists _, _. split; [done|]. split; [|done].
  repeat constructor; unfold no_password; by rewrite set_field_other.
Qed.

Lemma update_discreet (oid : ObjectId) (u : update) (s500 s200 : string) st :
  u = Unset ["archived"; "archivedAt"]
  ∨ (∃ t, u = Set_ [("archived", VBool true); ("archivedAt", VDate t)]) →
  Forall no_password (resumes st) →
  discreet
    (try_catch
       (matchedCount ← db_updateOne Resumes [("_id", Is (VOid oid))] u;
        if bool_decide (matchedCount = 0%nat)
        then mret (json 404 (message "Resume not found"))
        else mret (json 200 (message s200)))
       (json 500 (message s500))) st.
Proof.
  intros Hu H. unfold discreet. cbn.
  assert (Forall no_password (updateOne [("_id", Is (VOid oid))] u (resumes st)).1).
  { apply updateOne_Forall; [|done]. intros d. by apply archive_keeps_no_password. }
  destruct (bool_decide _); eexists _, _; (split; [done|]); split; try done;
    by repeat constructor.
Qed.

Lemma delete_discreet (oid : ObjectId) (s500 s200 : string) st :
  Forall no_password (resumes st) →
  discreet
    (try_catch
       (deletedCount ← db_deleteOne Resumes [("_id", Is (VOid oid))];
        if bool_decide (deletedCount = 0%nat)
        then mret (json 404 (message "Resume not found"))
        else mret (json 200 (message s200)))
       (json 500 (message s500))) st.
Proof.
  intros H. unfold discreet. cbn.
  pose proof (deleteOne_Forall _ [("_id", Is (VOid oid))] _ H).
  destruct (bool_decide _); eexists _, _; (split; [done|]); split; try done;
    by repeat constructor.
Qed.

Lemma deleteUser_discreet id st :
  Forall no_password (resumes st) → discreet (deleteUser id) st.
Proof.
  intros H. unfold discreet, deleteUser, new_ObjectId.
  destruct (ObjectId_new id) as [oid|]; cbn; [|by apply discreet_message].
  destruct (findOne _ (users st)) as [u|]; cbn; [|by apply discreet_message].
  destruct (bool_decide (u !! "role" = _)); cbn; [by apply discreet_message|].
  assert (Forall no_password (deleteMany [("userId", Is (VStr id))] (resumes st)).1).
  { unfold deleteMany. simpl. by apply filter_Forall. }
  destruct (bool_decide _); eexists _, _; (split; [done|]); split; try done;
    by repeat constructor.
Qed.

(** C8: whatever the request and its inputs, the request is answered and
    no document of the answer has a [password] field, as long as no stored
    resume has a field of that name; and the store the request leaves has
    none either, so that this goes on from request to request. *)
Theorem no_password_in_answers (e : Env) (req : Request) (st : Store) :
  Forall no_password (resumes st) →
  ∃ resp st',
    run (handle e req) st = (Some resp, st')
    ∧ Forall no_password (docs_of resp)
    ∧ Forall no_password (resumes st').
Proof.
  intros H. destruct req; simpl.
  - by apply register_discreet.
  - by apply login_discreet.
  - by apply saveResume_discreet.
  - by apply getUserResumes_discreet.
  - by apply getAllUsers_discreet.
  - by apply getAllResumes_discreet.
  - by apply adminStatus_discreet.
  - by apply createAdmin_discreet.
  - unfold archiveResume, new_ObjectId.
    destruct (ObjectId_new id); [|by apply discreet_message].
    apply update_discreet; eauto.
  - unfold deleteResume, new_ObjectId.
    destruct (ObjectId_new id); [|by apply discreet_message].
    by apply delete_discreet.
  - unfold adminArchiveResume, new_ObjectId.
    destruct (ObjectId_new id); [|by apply discreet_message].
    apply update_discreet; eauto.
  - unfold adminDeleteResume, new_ObjectId.
    destruct (ObjectId_new id); [|by apply discreet_message].
    by apply delete_discreet.
  - by apply deleteUser_discreet.
  - by apply getArchivedResumes_discreet.
  - unfold restoreResume, new_ObjectId.
    destruct (ObjectId_new id); [|by apply discreet_message].
    apply update_discreet; eauto.
Qed.

End Confidentiality.

Section Accounts.
Context {P : Platform}.

Lemma violates_false (unique : list string) (d : doc) (c : list doc) :
  (∀ k e, k ∈ unique → e ∈ c → index_key k e ≠ index_key k d) →
  violates unique d c = false.
Proof.
  intros H. unfold violates. apply not_true_is_false.
  intros (k & Hk & (e & He & Heq)%existsb_exists)%existsb_exists.
  apply list_elem_of_In in Hk, He. apply bool_decide_eq_true in Heq.
  by destruct (H k e Hk He).
Qed.

Lemma violates_true (unique : list string) (d : doc) (c : list doc) (k : string)
    (e : doc) :
  k ∈ unique → e ∈ c → index_key k e = index_key k d →
  violates unique d c = true.
Proof.
  intros Hk He Heq. unfold violates. apply existsb_exists.
  exists k. split; [by apply list_elem_of_In|]. apply existsb_exists.
  exists e. split; [by apply list_elem_of_In|]. by apply bool_decide_eq_true.
Qed.

Lemma findOne_email_None (c : list doc) (email : string) :
  (∀ u, u ∈ c → u !! "email" ≠ Some (VStr email)) →
  findOne [("email", Is (VStr email))] c = None.
Proof.
  intros H. apply findOne_None. intros d Hd.
  destruct (matches _ d) eqn:Hm; [|done].
  apply matches_field_inv in Hm; [|done]. by destruct (H d Hd).
Qed.

Lemma run_register_new (st : Store) (e : Env) (name email password : string) :
  (∀ u, u ∈ users st → u !! "email" ≠ Some (VStr email)) →
  (∀ u, u ∈ users st → u !! "_id" ≠ Some (VOid (fresh e))) →
  run (register e name email password) st
  = (Some (json 201 (<["id" := VOid (fresh e)]>
                       (delete "password" (new_user e name email password)))),
     {| users := users st ++ [new_user e name email password];
        resumes := resumes st |}).
Proof.
  intros Hemail Hid. unfold register. cbn.
  rewrite (findOne_email_None _ _ Hemail). cbn.
  assert (Hw : with_id (fresh e)
                 {[ "name" := VStr name; "email" := VStr email;
                    "password" := VStr (bcrypt_hash (salt e) password);
                    "role" := VStr "user"; "createdAt" := VDate (now e) ]}
               = new_user e name email password) by done.
  rewrite insertOne_fresh; rewrite Hw.
  - cbn. by unfold set_field, new_user; rewrite lookup_insert_eq.
  - apply violates_false. intros k u Hk Hu.
    assert (Hcases : k = "_id" ∨ k = "email") by set_solver.
    unfold index_key. destruct Hcases as [-> | ->].
    + specialize (Hid u Hu). unfold new_user. rewrite lookup_insert_eq. simpl.
      destruct (u !! "_id"); simpl; congruence.
    + specialize (Hemail u Hu).
      replace (new_user e name email password !! "email") with (Some (VStr email)) by done.
      simpl. destruct (u !! "email"); simpl; congruence.
Qed.

Lemma run_register_taken (st : Store) (e : Env) (name email password : string)
    (u : doc) :
  u ∈ users st → u !! "email" = Some (VStr email) →
  run (register e name email password) st
  = (Some (json Conflict (message "User with this email already exists")), st).
Proof.
  intros Hu He. unfold register. cbn.
  destruct (findOne _ (users st)) as [u'|] eqn:Hf; [done|].
  rewrite findOne_None in Hf. specialize (Hf u Hu).
  by rewrite (matches_field _ _ _ He) in Hf.
Qed.

(** X1. Registration of an email that some user already has answers Conflict
    ("User with this email already exists") and stores nothing, whatever the
    name and the password. *)
Theorem register_email_taken (st : Store) (e : Env) (name email password : string) :
  (∃ u, u ∈ users st ∧ u !! "email" = Some (VStr email)) →
  run (register e name email password) st
  = (Some (json Conflict (message "User with this email already exists")), st).
Proof. intros (u & Hu & He). by apply (run_register_taken st e name email password u). Qed.

(** X2. Registration of an email that no user has answers 201: the record is
    appended to [users] with role [user], the time of the request and the
    bcrypt hash in place of the password; the answer is that record without
    its [password] field and with the generated [_id] also under [id]; the
    resumes are not touched. *)
Theorem register_new_email (st : Store) (e : Env) (name email password : string) :
  (∀ u, u ∈ users st → u !! "email" ≠ Some (VStr email)) →
  (∀ u, u ∈ users st → u !! "_id" ≠ Some (VOid (fresh e))) →
  ∃ stored answer,
    run (register e name email password) st
    = (Some (json 201 answer),
       {| users := users st ++ [stored]; resumes := resumes st |})
    ∧ stored !! "password" = Some (VStr (bcrypt_hash (salt e) password))
    ∧ stored !! "role" = Some (VStr "user")
    ∧ stored !! "name" = Some (VStr name)
    ∧ stored !! "email" = Some (VStr email)
    ∧ stored !! "createdAt" = Some (VDate (now e))
    ∧ stored !! "_id" = Some (VOid (fresh e))
    ∧ answer = <["id" := VOid (fresh e)]> (delete "password" stored)
    ∧ answer !! "password" = None.
Proof.
  intros Hemail Hid. eexists _, _. split; [by apply run_register_new|].
  by split_and!.
Qed.

(** X3. A user who has just registered can log in: when bcrypt verifies the
    password against the hash it has made of it, login with the same email
    and password answers 200 with the very record that registration
    answered, and changes nothing. *)
Theorem register_then_login (st : Store) (e : Env) (name email password : string) :
  (∀ u, u ∈ users st → u !! "email" ≠ Some (VStr email)) →
  (∀ u, u ∈ users st → u !! "_id" ≠ Some (VOid (fresh e))) →
  bcrypt_compare password (bcrypt_hash (salt e) password) = true →
  let r := run (register e name email password) st in
  ∃ answer,
    r.1 = Some (json 201 answer)
    ∧ run (login email password) r.2 = (Some (json 200 answer), r.2).
Proof.
  intros Hemail Hid Hok r. unfold r. rewrite run_register_new by done.
  eexists. split; [done|]. cbn [fst snd]. unfold login. cbn.
  rewrite (findOne_app_hit _ _ [] (new_user e name email password));
    [|by apply findOne_email_None|by apply matches_field].
  cbn. replace (new_user e name email password !! "password")
    with (Some (VStr (bcrypt_hash (salt e) password))) by done.
  cbn. by rewrite Hok.
Qed.

(** X4. Registering the same email a second time, with any name and password,
    answers Conflict and leaves the store as the first registration made
    it. *)
Theorem register_twice (st : Store) (e e' : Env)
    (name email password name' password' : string) :
  (∀ u, u ∈ users st → u !! "email" ≠ Some (VStr email)) →
  (∀ u, u ∈ users st → u !! "_id" ≠ Some (VOid (fresh e))) →
  let r := run (register e name email password) st in
  run (register e' name' email password') r.2
  = (Some (json Conflict (message "User with this email already exists")), r.2).
Proof.
  intros Hemail Hid r. unfold r.
  rewrite (run_register_new st e name email password) by done. cbn [snd].
  apply (run_register_taken _ e' name' email password' (new_user e name email password));
    [|done].
  cbn. apply elem_of_app. right. by apply list_elem_of_singleton.
Qed.

End Accounts.

Section Keys.
Context {P : Platform}.

Lemma deleteOne_sublist (q : query) (c : list doc) :
  (deleteOne q c).1 `sublist_of` c.
Proof.
  induction c as [|d c IH]; simpl; [constructor|].
  destruct (matches q d); simpl; [by apply sublist_cons|by apply sublist_skip].
Qed.

Lemma List_filter_sublist (f : doc → bool) (c : list doc) :
  List.filter f c `sublist_of` c.
Proof.
  induction c as [|d c IH]; simpl; [constructor|].
  destruct (f d); [by apply sublist_skip|by apply sublist_cons].
Qed.

Lemma sublist_keys {A : Type} (f : doc → A) (c c' : list doc) :
  c' `sublist_of` c → NoDup (map f c) → NoDup (map f c').
Proof.
  intros Hs Hnd. eapply sublist_NoDup; [exact Hnd|].
  by apply (fmap_sublist f).
Qed.

Lemma updateOne_keys {A : Type} (f : doc → A) (q : query) (u : update)
    (c : list doc) :
  (∀ d, f (apply_update u d) = f d) → map f (updateOne q u c).1 = map f c.
Proof.
  intros Hu. induction c as [|d c IH]; simpl; [done|].
  destruct (matches q d); simpl; by rewrite ?Hu, ?IH.
Qed.

Lemma archive_update_other (u : update) (k : string) (d : doc) :
  u = Unset ["archived"; "archivedAt"]
  ∨ (∃ t, u = Set_ [("archived", VBool true); ("archivedAt", VDate t)]) →
  k ≠ "archived" → k ≠ "archivedAt" →
  apply_update u d !! k = d !! k.
Proof.
  intros [->|[t ->]] H1 H2; simpl.
  - by rewrite !lookup_delete_ne.
  - by rewrite !lookup_insert_ne.
Qed.

Lemma insertOne_keys (unique : list string) (fresh : ObjectId) (d d' : doc)
    (c c' : list doc) (k : string) :
  insertOne unique fresh d c = Some (d', c') →
  k ∈ "_id" :: unique →
  NoDup (map (index_key k) c) → NoDup (map (index_key k) c').
Proof.
  unfold insertOne. destruct (violates _ _ _) eqn:Hv; [done|].
  intros [= <- <-] Hk Hnd. rewrite map_app. simpl.
  apply NoDup_app. split_and!; [done| |by apply NoDup_singleton].
  intros x (e & Hx & He)%list_elem_of_fmap Hx'%list_elem_of_singleton.
  assert (violates ("_id" :: unique) (with_id fresh d) c = true); [|congruence].
  apply (violates_true _ _ _ k e); [done..|congruence].
Qed.

(** [unique_ids] in terms of the index key, when every document has an
    [_id]. *)
Lemma insertOne_unique_ids (unique : list string) (fresh : ObjectId) (d d' : doc)
    (c c' : list doc) :
  insertOne unique fresh d c = Some (d', c') →
  unique_ids c → unique_ids c'.
Proof.
  unfold insertOne, unique_ids. destruct (violates _ _ _) eqn:Hv; [done|].
  intros [= <- <-] Hnd. rewrite map_app. simpl.
  apply NoDup_app. split_and!; [done| |by apply NoDup_singleton].
  intros x (e & Hx & He)%list_elem_of_fmap Hx'%list_elem_of_singleton.
  assert (violates ("_id" :: unique) (with_id fresh d) c = true); [|congruence].
  apply (violates_true _ _ _ "_id" e); [set_solver|done|].
  unfold index_key. by rewrite <- Hx, Hx'.
Qed.

Lemma insert_keeps_keys (st : Store) (c : coll) (fresh : ObjectId) (d d' : doc)
    (c' : list doc) :
  insertOne (unique_index c) fresh d (collection c st) = Some (d', c') →
  well_keyed st → well_keyed (put c c' st).
Proof.
  intros Hi (H1 & H2 & H3). destruct c; simpl in *; split_and!; try done.
  - by apply (insertOne_unique_ids _ _ _ _ _ _ Hi).
  - apply (insertOne_keys _ _ _ _ _ _ "email" Hi); [set_solver|done].
  - by apply (insertOne_unique_ids _ _ _ _ _ _ Hi).
Qed.

Lemma update_keeps_keys (st : Store) (q : query) (u : update) :
  u = Unset ["archived"; "archivedAt"]
  ∨ (∃ t, u = Set_ [("archived", VBool true); ("archivedAt", VDate t)]) →
  well_keyed st →
  well_keyed (put Resumes (updateOne q u (resumes st)).1 st).
Proof.
  intros Hu (H1 & H2 & H3). split_and!; try done. simpl. unfold unique_ids.
  rewrite updateOne_keys; [done|]. intros d. by apply archive_update_other.
Qed.

Lemma sublist_keeps_keys (st : Store) (us rs : list doc) :
  us `sublist_of` users st → rs `sublist_of` resumes st →
  well_keyed st → well_keyed {| users := us; resumes := rs |}.
Proof.
  intros Hu Hr (H1 & H2 & H3). split_and!; simpl; by eapply sublist_keys.
Qed.

(** X5. Every request leaves the store with its keys: no two users and no two
    resumes with one [_id], no two users with one email, if that was so
    before the request. *)
Theorem requests_keep_keys (e : Env) (req : Request) (st : Store) :
  well_keyed st → well_keyed (run (handle e req) st).2.
Proof.
  intros H. destruct req; simpl.
  - unfold register. cbn. destruct (findOne _ (users st)); cbn; [done|].
    destruct (insertOne _ _ _ _) as [[d' c']|] eqn:Hi; cbn; [|done].
    by apply (insert_keeps_keys st Users _ _ _ _ Hi).
  - unfold login. cbn. destruct (findOne _ (users st)) as [u|]; cbn; [|done].
    unfold compare_password.
    destruct (u !! "password") as [[| | |h| |]|]; cbn; try done.
    by destruct (bcrypt_compare password h).
  - unfold saveResume. cbn.
    destruct (insertOne _ _ _ _) as [[d' c']|] eqn:Hi; cbn; [|done].
    by apply (insert_keeps_keys st Resumes _ _ _ _ Hi).
  - by destruct st.
  - by destruct st.
  - by destruct st.
  - by destruct st.
  - unfold createAdmin. cbn. destruct (findOne _ (users st)); cbn; [done|].
    destruct (insertOne _ _ _ _) as [[d' c']|] eqn:Hi; cbn; [|done].
    by apply (insert_keeps_keys st Users _ _ _ _ Hi).
  - unfold archiveResume, new_ObjectId. destruct (ObjectId_new id); [|done].
    cbn. destruct (bool_decide _); apply (update_keeps_keys st); eauto.
  - unfold deleteResume, new_ObjectId. destruct (ObjectId_new id); [|done].
    cbn. destruct (bool_decide _);
      (apply (sublist_keeps_keys st); [done|apply deleteOne_sublist|done]).
  - unfold adminArchiveResume, new_ObjectId. destruct (ObjectId_new id); [|done].
    cbn. destruct (bool_decide _); apply (update_keeps_keys st); eauto.
  - unfold adminDeleteResume, new_ObjectId. destruct (ObjectId_new id); [|done].
    cbn. destruct (bool_decide _);
      (apply (sublist_keeps_keys st); [done|apply deleteOne_sublist|done]).
  - unfold deleteUser, new_ObjectId. destruct (ObjectId_new id); [|done].
    cbn. destruct (findOne _ (users st)) as [u|]; cbn; [|done].
    destruct (bool_decide (u !! "role" = _)); cbn; [done|].
    destruct (bool_decide _);
      (apply (sublist_keeps_keys st);
       [apply deleteOne_sublist|apply List_filter_sublist|done]).
  - by destruct st.
  - unfold restoreResume, new_ObjectId. destruct (ObjectId_new id); [|done].
    cbn. destruct (bool_decide _); apply (update_keeps_keys st); eauto.
Qed.

(** X6. A request changes no collection but those its route writes to: login and
    the GET routes change nothing at all, the routes of resumes leave the
    users alone, registration and the creation of an admin leave the
    resumes alone; only the deletion of a user writes to both. This holds
    on every input, also when the request fails. *)
Theorem requests_write_their_collection (e : Env) (req : Request) (c : coll)
    (st : Store) :
  writes_to req c = false →
  collection c (run (handle e req) st).2 = collection c st.
Proof.
  intros H.
  destruct req, c; try discriminate H; clear H; simpl;
    unfold register, login, saveResume, createAdmin, archiveResume, deleteResume,
      adminArchiveResume, adminDeleteResume, restoreResume, new_ObjectId,
      compare_password;
    cbn;
    repeat (first
      [ done
      | match goal with
        | |- context [match ?x with _ => _ end] => destruct x eqn:?; cbn
        end ]).
Qed.

End Keys.

Section Order.
Context {P : Platform}.

Lemma Ascii_compare_trans (a b c : ascii) :
  Ascii.compare a b ≠ Lt → Ascii.compare b c ≠ Lt → Ascii.compare a c ≠ Lt.
Proof.
  unfold Ascii.compare. rewrite !N.compare_lt_iff. lia.
Qed.

Lemma Ascii_compare_Eq (a b : ascii) : Ascii.compare a b = Eq → a = b.
Proof. apply Ascii.compare_eq_iff. Qed.

Lemma Ascii_compare_refl (a : ascii) : Ascii.compare a a = Eq.
Proof. unfold Ascii.compare. apply N.compare_refl. Qed.

Lemma String_compare_trans (a b c : string) :
  String.compare a b ≠ Lt → String.compare b c ≠ Lt → String.compare a c ≠ Lt.
Proof.
  revert b c. induction a as [|x a IH]; intros [|y b] [|z c]; simpl; try done.
  destruct (Ascii.compare x y) eqn:Hxy; [|done|].
  - apply Ascii_compare_Eq in Hxy as ->.
    destruct (Ascii.compare y z) eqn:Hyz; [|done|done].
    by apply IH.
  - intros _. destruct (Ascii.compare y z) eqn:Hyz; [|done|].
    + apply Ascii_compare_Eq in Hyz as <-. by rewrite Hxy.
    + intros _. assert (Ascii.compare x z ≠ Lt) as H.
      { apply (Ascii_compare_trans x y z); congruence. }
      destruct (Ascii.compare x z) eqn:Hxz; [|done|done].
      apply Ascii_compare_Eq in Hxz as <-.
      rewrite Ascii.compare_antisym, Hxy in Hyz. done.
Qed.

Lemma Bool_compare_trans (a b c : bool) :
  Bool.compare a b ≠ Lt → Bool.compare b c ≠ Lt → Bool.compare a c ≠ Lt.
Proof. by destruct a, b, c. Qed.

Lemma Z_compare_trans (a b c : Z) :
  Z.compare a b ≠ Lt → Z.compare b c ≠ Lt → Z.compare a c ≠ Lt.
Proof. rewrite !Z.compare_lt_iff. lia. Qed.

Lemma at_least_trans (a b c : option value) :
  at_least a b → at_least b c → at_least a c.
Proof.
  unfold at_least.
  destruct a as [[]|], b as [[]|], c as [[]|]; simpl; try done;
    eauto using Z_compare_trans, String_compare_trans, Bool_compare_trans.
Qed.

Lemma Z_compare_antisym (a b : Z) : Z.compare a b = Lt → Z.compare b a ≠ Lt.
Proof. rewrite !Z.compare_lt_iff. lia. Qed.

Lemma String_compare_antisym (a b : string) :
  String.compare a b = Lt → String.compare b a ≠ Lt.
Proof. rewrite (String.compare_antisym a b). by destruct (String.compare b a). Qed.

Lemma Bool_compare_antisym (a b : bool) :
  Bool.compare a b = Lt → Bool.compare b a ≠ Lt.
Proof. by destruct a, b. Qed.

Lemma at_least_antisym (a b : option value) :
  bson_compare a b = Lt → at_least b a.
Proof.
  unfold at_least.
  destruct a as [[]|], b as [[]|]; simpl; try done;
    eauto using Z_compare_antisym, String_compare_antisym, Bool_compare_antisym.
Qed.

Lemma insert_desc_descending (k : string) (d : doc) (c : list doc) :
  descending k c → descending k (insert_desc k d c).
Proof.
  unfold descending. induction 1 as [|e c Hc IH He]; simpl.
  - repeat constructor.
  - destruct (bson_compare (d !! k) (e !! k)) eqn:Hde.
    + constructor; [by constructor|]. constructor.
      * unfold at_least. by rewrite Hde.
      * eapply Forall_impl; [exact He|]. intros x Hx. simpl in *.
        apply (at_least_trans _ (e !! k)); [|done]. unfold at_least. by rewrite Hde.
    + constructor; [done|].
      rewrite insert_desc_perm. constructor; [|done].
      by apply at_least_antisym.
    + constructor; [by constructor|]. constructor.
      * unfold at_least. by rewrite Hde.
      * eapply Forall_impl; [exact He|]. intros x Hx. simpl in *.
        apply (at_least_trans _ (e !! k)); [|done]. unfold at_least. by rewrite Hde.
Qed.

Lemma sort_desc_descending (k : string) (c : list doc) :
  descending k (sort_desc k c).
Proof.
  unfold sort_desc. induction c as [|d c IH]; simpl; [constructor|].
  by apply insert_desc_descending.
Qed.

Lemma descending_map (k : string) (f : doc → doc) (l : list doc) :
  (∀ d, f d !! k = d !! k) → descending k l → descending k (map f l).
Proof.
  intros Hf. unfold descending. induction 1 as [|d l Hl IH Hd]; simpl.
  - constructor.
  - constructor; [done|]. apply Forall_fmap. eapply Forall_impl; [exact Hd|].
    intros x Hx. simpl. by rewrite !Hf.
Qed.

Lemma descending_dates (k : string) (l : list doc) (i j : nat) (a b : doc)
    (ta tb : Z) :
  descending k l → (i < j)%nat → l !! i = Some a → l !! j = Some b →
  a !! k = Some (VDate ta) → b !! k = Some (VDate tb) → (tb ≤ ta)%Z.
Proof.
  unfold descending. intros Hl. revert i j.
  induction Hl as [|d l Hl IH Hd]; intros i j Hij Hi Hj Ha Hb; [done|].
  destruct j as [|j]; [lia|]. simpl in Hj. destruct i as [|i].
  - simpl in Hi. injection Hi as ->.
    rewrite Forall_forall in Hd. specialize (Hd b (list_elem_of_lookup_2 _ _ _ Hj)).
    unfold at_least in Hd. rewrite Ha, Hb in Hd. simpl in Hd.
    rewrite Z.compare_lt_iff in Hd. lia.
  - simpl in Hi. apply (IH i j); [lia|done..].
Qed.

(** X7. The three listings come in descending order: a user's resumes and the
    admin's view by [uploadedAt], the archived resumes by [archivedAt]; a
    document that lacks the field comes last, as a [null] would. So in each
    listing the latest upload (the latest archiving) comes first. *)
Theorem listings_descending (st : Store) (userId : string) :
  ∃ active archived everyone,
    run (getUserResumes userId) st = (Some (json_list 200 active), st)
    ∧ run (getArchivedResumes userId) st = (Some (json_list 200 archived), st)
    ∧ run getAllResumes st = (Some (json_list 200 everyone), st)
    ∧ descending "uploadedAt" active ∧ latest_first "uploadedAt" active
    ∧ descending "archivedAt" archived ∧ latest_first "archivedAt" archived
    ∧ descending "uploadedAt" everyone ∧ latest_first "uploadedAt" everyone.
Proof.
  eexists _, _, _. split; [reflexivity|]. split; [reflexivity|].
  split; [reflexivity|].
  assert (H1 : descending "uploadedAt"
           (map add_id (sort_desc "uploadedAt"
              (find [("userId", Is (VStr userId)); ("archived", Ne (VBool true))]
                    (resumes st))))).
  { apply descending_map; [|apply sort_desc_descending].
    intros d. by apply add_id_other. }
  assert (H2 : descending "archivedAt"
           (map add_id (sort_desc "archivedAt"
              (find [("userId", Is (VStr userId)); ("archived", Is (VBool true))]
                    (resumes st))))).
  { apply descending_map; [|apply sort_desc_descending].
    intros d. by apply add_id_other. }
  assert (H3 : descending "uploadedAt"
           (map (join_user (build_usersMap (find [] (users st))))
              (sort_desc "uploadedAt" (find [("archived", Ne (VBool true))] (resumes st))))).
  { apply descending_map; [|apply sort_desc_descending].
    intros d. unfold join_user. by rewrite !set_field_other. }
  split_and!; [exact H1| |exact H2| |exact H3|];
    intros i j a b ta tb; by eapply descending_dates.
Qed.

End Order.

Section Transitions.
Context {P : Platform}.

(** Where the documents of a listing come from. *)
Lemma listing_source (q : query) (k : string) (c : list doc) (x : doc) :
  x ∈ map add_id (sort_desc k (find q c)) ↔
  ∃ r, r ∈ c ∧ matches q r = true ∧ x = add_id r.
Proof.
  rewrite list_elem_of_fmap. setoid_rewrite sort_desc_perm.
  setoid_rewrite elem_of_find. naive_solver.
Qed.

Lemma id_gone_findOne (oid : ObjectId) (c : list doc) :
  (∀ x, x ∈ c → x !! "_id" ≠ Some (VOid oid)) →
  findOne [("_id", Is (VOid oid))] c = None.
Proof.
  intros H. apply findOne_None. intros d Hd.
  destruct (matches _ d) eqn:Hm; [|done].
  apply matches_id in Hm; [|done]. by destruct (H d Hd).
Qed.

Lemma run_update_miss (st : Store) (oid : ObjectId) (u : update) (s200 s500 : string) :
  findOne [("_id", Is (VOid oid))] (resumes st) = None →
  run (try_catch
         (matchedCount ← db_updateOne Resumes [("_id", Is (VOid oid))] u;
          if bool_decide (matchedCount = 0%nat)
          then mret (json 404 (message "Resume not found"))
          else mret (json 200 (message s200)))
         (json 500 (message s500))) st
  = (Some (json NotFound (message "Resume not found")), st).
Proof. intros Hf. cbn. rewrite (updateOne_miss _ _ _ Hf). cbn. by destruct st. Qed.

Lemma run_archive_miss (st : Store) (e : Env) (id : string) (oid : ObjectId) :
  ObjectId_new id = Some oid →
  findOne [("_id", Is (VOid oid))] (resumes st) = None →
  run (archiveResume e id) st
  = (Some (json NotFound (message "Resume not found")), st).
Proof.
  intros Hid Hf. unfold archiveResume, new_ObjectId. rewrite Hid.
  by apply run_update_miss.
Qed.

Lemma run_restore_miss (st : Store) (id : string) (oid : ObjectId) :
  ObjectId_new id = Some oid →
  findOne [("_id", Is (VOid oid))] (resumes st) = None →
  run (restoreResume id) st
  = (Some (json NotFound (message "Resume not found")), st).
Proof.
  intros Hid Hf. unfold restoreResume, new_ObjectId. rewrite Hid.
  by apply run_update_miss.
Qed.

(** X8. PermanentDelete of a resume that exists, archived or not, answers 200
    and takes that one record out of [resumes]; with identifiers unique, no
    resume of that identifier is left, neither listing of any user shows it,
    and Archive, Restore and a second PermanentDelete on the identifier all
    answer NotFound. *)
Theorem delete_resume_for_good (st : Store) (id : string) (oid : ObjectId)
    (r : doc) :
  ObjectId_new id = Some oid →
  findOne [("_id", Is (VOid oid))] (resumes st) = Some r →
  unique_ids (resumes st) →
  let d := run (deleteResume id) st in
  d.1 = Some (json 200 (message "Resume deleted permanently"))
  ∧ users d.2 = users st
  ∧ (∃ l1 l2, resumes st = l1 ++ r :: l2 ∧ resumes d.2 = l1 ++ l2)
  ∧ (∀ x, x ∈ resumes d.2 → x !! "_id" ≠ Some (VOid oid))
  ∧ (∀ userId active archived,
       run (getUserResumes userId) d.2 = (Some (json_list 200 active), d.2) →
       run (getArchivedResumes userId) d.2 = (Some (json_list 200 archived), d.2) →
       ∀ x, x ∈ active ++ archived → x !! "_id" ≠ Some (VOid oid))
  ∧ (∀ e, run (archiveResume e id) d.2
          = (Some (json NotFound (message "Resume not found")), d.2))
  ∧ run (restoreResume id) d.2
    = (Some (json NotFound (message "Resume not found")), d.2)
  ∧ run (deleteResume id) d.2
    = (Some (json NotFound (message "Resume not found")), d.2).
Proof.
  intros Hid Hr Hnd.
  destruct (findOne_split _ _ _ Hr) as (l1 & l2 & Hc & Hl1 & Hm).
  assert (Hgone : ∀ x, x ∈ l1 ++ l2 → x !! "_id" ≠ Some (VOid oid)).
  { rewrite Hc in Hnd. apply (unique_ids_gone oid l1 l2 r Hnd Hl1).
    by apply matches_id in Hm. }
  assert (Hrun : run (deleteResume id) st
                 = (Some (json 200 (message "Resume deleted permanently")),
                    {| users := users st; resumes := l1 ++ l2 |})).
  { unfold deleteResume, new_ObjectId. rewrite Hid. cbn.
    by rewrite Hc, (deleteOne_hit _ _ _ _ Hl1 Hm). }
  cbv zeta. rewrite Hrun. cbn [fst snd users resumes].
  pose proof (id_gone_findOne oid _ Hgone) as Hf.
  split_and!; try done.
  - by exists l1, l2.
  - intros userId active archived [= <-] [= <-] x Hx.
    apply elem_of_app in Hx as [Hx|Hx];
      apply listing_source in Hx as (r' & Hr' & _ & ->);
      rewrite add_id_other by done; by apply Hgone.
  - intros e. unfold archiveResume, new_ObjectId. rewrite Hid.
    by apply run_update_miss.
  - unfold restoreResume, new_ObjectId. rewrite Hid. by apply run_update_miss.
  - unfold deleteResume, new_ObjectId. rewrite Hid. cbn.
    by rewrite (deleteOne_miss _ _ Hf).
Qed.

Lemma updated_ids (oid : ObjectId) (l1 l2 : list doc) (r r' : doc) :
  unique_ids (l1 ++ r :: l2) →
  findOne [("_id", Is (VOid oid))] l1 = None →
  r !! "_id" = Some (VOid oid) →
  ∀ x, x ∈ l1 ++ r' :: l2 → x !! "_id" = Some (VOid oid) → x = r'.
Proof.
  intros Hnd Hl1 Hr x Hx Hxid.
  apply elem_of_app in Hx as [Hx|Hx].
  - destruct (unique_ids_gone oid l1 l2 r Hnd Hl1 Hr x); [|done].
    apply elem_of_app. by left.
  - apply elem_of_cons in Hx as [->|Hx]; [done|].
    destruct (unique_ids_gone oid l1 l2 r Hnd Hl1 Hr x); [|done].
    apply elem_of_app. by right.
Qed.

(** X9. Archive of a resume that exists takes it out of its owner's listing of
    resumes and puts it, marked [archived] and dated with the time of the
    request, into the listing of archived resumes; identifiers being
    unique, no document of that identifier is left in the first listing. *)
Theorem archive_moves_to_archived (st : Store) (e : Env) (id : string)
    (oid : ObjectId) (r : doc) (userId : string) :
  ObjectId_new id = Some oid →
  findOne [("_id", Is (VOid oid))] (resumes st) = Some r →
  r !! "userId" = Some (VStr userId) →
  unique_ids (resumes st) →
  let a := run (archiveResume e id) st in
  let r' := <["archived" := VBool true]> (<["archivedAt" := VDate (now e)]> r) in
  ∃ active archived,
    run (getUserResumes userId) a.2 = (Some (json_list 200 active), a.2)
    ∧ run (getArchivedResumes userId) a.2 = (Some (json_list 200 archived), a.2)
    ∧ add_id r' ∈ archived
    ∧ (∀ x, x ∈ active → x !! "_id" ≠ Some (VOid oid)).
Proof.
  intros Hid Hr Hu Hnd.
  destruct (findOne_split _ _ _ Hr) as (l1 & l2 & Hc & Hl1 & Hm).
  cbv zeta. rewrite (run_archive_hit st e id oid l1 l2 r) by done.
  cbn [fst snd]. eexists _, _. split; [reflexivity|]. split; [reflexivity|].
  cbn. split.
  - apply listing_source. eexists. split_and!; [|apply matches_archived|done].
    + apply elem_of_app. right. by left.
    + by rewrite lookup_insert_eq, !lookup_insert_ne.
  - intros x (x' & Hx' & Hact & ->)%listing_source. rewrite add_id_other by done.
    intros Hx. rewrite Hc in Hnd.
    rewrite (updated_ids oid l1 l2 r _ Hnd Hl1 (matches_id _ _ Hm ltac:(done)) x' Hx' Hx)
      in Hact.
    apply matches_active in Hact as [_ Hact]. by rewrite lookup_insert_eq in Hact.
Qed.

(** X10. Restore of a resume that exists puts it, with no archive marker, into
    its owner's listing of resumes; identifiers being unique, no document of
    that identifier is left in the listing of archived resumes. *)
Theorem restore_moves_to_active (st : Store) (id : string) (oid : ObjectId)
    (r : doc) (userId : string) :
  ObjectId_new id = Some oid →
  findOne [("_id", Is (VOid oid))] (resumes st) = Some r →
  r !! "userId" = Some (VStr userId) →
  unique_ids (resumes st) →
  let a := run (restoreResume id) st in
  let r' := delete "archived" (delete "archivedAt" r) in
  ∃ active archived,
    run (getUserResumes userId) a.2 = (Some (json_list 200 active), a.2)
    ∧ run (getArchivedResumes userId) a.2 = (Some (json_list 200 archived), a.2)
    ∧ add_id r' ∈ active
    ∧ (∀ x, x ∈ archived → x !! "_id" ≠ Some (VOid oid)).
Proof.
  intros Hid Hr Hu Hnd.
  destruct (findOne_split _ _ _ Hr) as (l1 & l2 & Hc & Hl1 & Hm).
  cbv zeta. rewrite (run_restore_hit st id oid l1 l2 r) by done.
  cbn [fst snd]. eexists _, _. split; [reflexivity|]. split; [reflexivity|].
  cbn. split.
  - apply listing_source. eexists. split_and!; [|apply matches_active|done].
    + apply elem_of_app. right. by left.
    + by rewrite lookup_delete_eq, !lookup_delete_ne.
  - intros x (x' & Hx' & Harc & ->)%listing_source. rewrite add_id_other by done.
    intros Hx. rewrite Hc in Hnd.
    rewrite (updated_ids oid l1 l2 r _ Hnd Hl1 (matches_id _ _ Hm ltac:(done)) x' Hx' Hx)
      in Harc.
    apply matches_archived in Harc as [_ Harc]. by rewrite lookup_delete_eq in Harc.
Qed.

(** X11. Archiving again: a second Archive on the same identifier answers as the
    first and leaves the store as one Archive at the time of the second
    would have: the flag stays, the date is the later one. Restoring again
    changes nothing more. Both hold for every identifier and store. *)
Theorem archive_and_restore_again (st : Store) (e1 e2 : Env) (id : string) :
  run (archiveResume e2 id) (run (archiveResume e1 id) st).2
  = run (archiveResume e2 id) st
  ∧ run (restoreResume id) (run (restoreResume id) st).2
    = run (restoreResume id) st.
Proof.
  destruct (ObjectId_new id) as [oid|] eqn:Hid;
    [|unfold archiveResume, restoreResume, new_ObjectId; by rewrite Hid].
  destruct (findOne [("_id", Is (VOid oid))] (resumes st)) as [r|] eqn:Hr.
  - destruct (findOne_split _ _ _ Hr) as (l1 & l2 & Hc & Hl1 & Hm).
    assert (Hm1 : ∀ t, matches [("_id", Is (VOid oid))]
                         (<["archived" := VBool true]> (<["archivedAt" := VDate t]> r)) = true).
    { intros t. apply matches_field. rewrite !lookup_insert_ne by done.
      by apply matches_id in Hm. }
    assert (Hm2 : matches [("_id", Is (VOid oid))]
                    (delete "archived" (delete "archivedAt" r)) = true).
    { apply matches_field. rewrite !lookup_delete_ne by done.
      by apply matches_id in Hm. }
    rewrite (run_archive_hit st e1 id oid l1 l2 r) by done.
    rewrite (run_archive_hit st e2 id oid l1 l2 r) by done.
    rewrite (run_restore_hit st id oid l1 l2 r) by done.
    cbn [snd].
    rewrite (run_archive_hit (put Resumes _ st) e2 id oid l1 l2 _ Hid eq_refl Hl1 (Hm1 _)).
    rewrite (run_restore_hit (put Resumes _ st) id oid l1 l2 _ Hid eq_refl Hl1 Hm2).
    cbn. split; do 4 f_equal.
    + apply map_eq. intros k.
      destruct (decide (k = "archived")) as [->|]; [by rewrite !lookup_insert_eq|].
      rewrite !(lookup_insert_ne _ "archived") by done.
      destruct (decide (k = "archivedAt")) as [->|]; [by rewrite !lookup_insert_eq|].
      by rewrite !lookup_insert_ne.
    + rewrite (delete_id (delete "archived" _) "archivedAt");
        [|by rewrite lookup_delete_ne, lookup_delete_eq].
      apply delete_id. by rewrite lookup_delete_eq.
  - rewrite (run_archive_miss st e1 id oid), (run_archive_miss st e2 id oid),
      (run_restore_miss st id oid) by done.
    cbn [snd].
    by rewrite (run_archive_miss st e2 id oid), (run_restore_miss st id oid).
Qed.

(** X12. DeleteUserCascade on an identifier that names no user fails and deletes
    nothing, not even resumes stored under that identifier: NotFound when
    the driver accepts the identifier, the handler's status 500 when the
    ObjectId constructor throws. *)
Theorem delete_unknown_user (st : Store) (id : string) :
  (∀ u, u ∈ users st → ¬ names id u) →
  run (deleteUser id) st
  = (Some (match ObjectId_new id with
           | Some _ => json NotFound (message "User not found")
           | None => json StoreFailure (message "Server error while deleting user")
           end), st).
Proof.
  intros H. unfold deleteUser, new_ObjectId.
  destruct (ObjectId_new id) as [oid|] eqn:Hid; [|done].
  cbn. rewrite id_gone_findOne; [done|].
  intros u Hu Hx. destruct (H u Hu). by exists oid.
Qed.

Lemma run_saveResume (st : Store) (e : Env)
    (userId fileName description fileContent : value) :
  (∀ r, r ∈ resumes st → r !! "_id" ≠ Some (VOid (fresh e))) →
  run (saveResume e userId fileName description fileContent) st
  = (Some (json 201 (add_id (new_resume e userId fileName description fileContent))),
     {| users := users st;
        resumes := resumes st ++ [new_resume e userId fileName description fileContent] |}).
Proof.
  intros Hfresh. unfold saveResume. cbn.
  assert (Hw : with_id (fresh e)
                 {[ "userId" := userId; "fileName" := fileName;
                    "description" := description; "fileContent" := fileContent;
                    "uploadedAt" := VDate (now e) ]}
               = new_resume e userId fileName description fileContent) by done.
  rewrite insertOne_fresh; rewrite Hw; [done|].
  apply (id_not_taken (VOid (fresh e))); [|done..].
  unfold new_resume. by rewrite lookup_insert_eq.
Qed.

Lemma find_app_miss (q : query) (c : list doc) (d : doc) :
  matches q d = false → find q (c ++ [d]) = find q c.
Proof.
  intros Hd. unfold find. rewrite List.filter_app. simpl. rewrite Hd.
  by rewrite app_nil_r.
Qed.

(** X13. A resume saved for a user is in that user's listing from then on, as
    the answer to the upload gave it; the listings of the other users and
    every listing of archived resumes answer as before. *)
Theorem saved_resume_is_listed (st : Store) (e : Env) (userId : string)
    (fileName description fileContent : value) :
  (∀ r, r ∈ resumes st → r !! "_id" ≠ Some (VOid (fresh e))) →
  let s := run (saveResume e (VStr userId) fileName description fileContent) st in
  ∃ answer active,
    s.1 = Some (json 201 answer)
    ∧ run (getUserResumes userId) s.2 = (Some (json_list 200 active), s.2)
    ∧ answer ∈ active
    ∧ (∀ other, other ≠ userId →
         (run (getUserResumes other) s.2).1 = (run (getUserResumes other) st).1)
    ∧ (∀ anyone,
         (run (getArchivedResumes anyone) s.2).1 = (run (getArchivedResumes anyone) st).1).
Proof.
  intros Hfresh. cbv zeta. rewrite run_saveResume by done. cbn [fst snd].
  eexists _, _. split; [reflexivity|]. split; [reflexivity|]. cbn.
  split_and!.
  - apply listing_source. eexists. split_and!; [|apply matches_active|done].
    + apply elem_of_app. right. by left.
    + done.
  - intros other Hother. rewrite find_app_miss; [done|].
    apply not_true_is_false. intros [H _]%matches_active.
    unfold new_resume in H. rewrite lookup_insert_ne in H by done.
    rewrite lookup_insert_eq in H. congruence.
  - intros anyone. rewrite find_app_miss; [done|].
    apply not_true_is_false. by intros [_ H]%matches_archived.
Qed.

End Transitions.

Section Administration.
Context {P : Platform}.

Lemma matches_admin (u : doc) :
  matches [("role", Is (VStr "admin"))] u = bool_decide (is_admin u).
Proof.
  unfold matches, holds, field_is; simpl. rewrite andb_true_r.
  destruct (u !! "role") as [v|] eqn:Hv.
  - apply bool_decide_ext. unfold is_admin. rewrite Hv. naive_solver.
  - symmetry. apply bool_decide_eq_false. unfold is_admin. by rewrite Hv.
Qed.

Lemma matches_not_admin (u : doc) :
  matches [("role", Ne (VStr "admin"))] u = negb (bool_decide (is_admin u)).
Proof.
  rewrite <- matches_admin. unfold matches, holds; simpl.
  by rewrite !andb_true_r.
Qed.

Lemma findOne_admin_None (c : list doc) :
  findOne [("role", Is (VStr "admin"))] c = None ↔ admins c = [].
Proof.
  rewrite findOne_None. unfold admins. split.
  - intros H. induction c as [|u c IH]; [done|]. simpl.
    rewrite <- matches_admin, (H u) by left. apply IH.
    intros d Hd. apply H. by right.
  - intros H d Hd. rewrite matches_admin. apply not_true_is_false. intros Hd'.
    assert (d ∈ List.filter (λ u, bool_decide (is_admin u)) c) as Hin.
    { apply list_elem_of_In, filter_In. by split; [apply list_elem_of_In|]. }
    rewrite H in Hin. by apply elem_of_nil in Hin.
Qed.

Lemma find_all (c : list doc) : find [] c = c.
Proof. unfold find. induction c as [|d c IH]; [done|]. simpl. by rewrite IH. Qed.

(** X14. The admin's list of users is the users that are not admins, in the
    order of the collection, each without its [password] field and with its
    [_id] also under [id]: no admin and no password is ever in it. *)
Theorem users_listing (st : Store) :
  ∃ listed,
    run getAllUsers st = (Some (json_list 200 listed), st)
    ∧ listed = map (λ u, add_id (delete "password" u))
                   (List.filter (λ u, negb (bool_decide (is_admin u))) (users st))
    ∧ (∀ d, d ∈ listed → ¬ is_admin d ∧ d !! "password" = None).
Proof.
  eexists. split; [reflexivity|]. cbn.
  assert (Heq : map add_id (project_out ["password"]
                  (find [("role", Ne (VStr "admin"))] (users st)))
                = map (λ u, add_id (delete "password" u))
                    (List.filter (λ u, negb (bool_decide (is_admin u))) (users st))).
  { unfold project_out, find. rewrite map_map. simpl. f_equal.
    apply filter_ext. intros u. apply matches_not_admin. }
  split; [exact Heq|]. rewrite Heq.
  intros d (u & -> & Hu)%list_elem_of_fmap.
  apply list_elem_of_In, filter_In in Hu as [_ Hu].
  apply negb_true_iff, bool_decide_eq_false in Hu.
  unfold is_admin in *. rewrite !add_id_other by done. split.
  - by rewrite lookup_delete_ne.
  - apply lookup_delete_eq.
Qed.

Lemma usersMap_miss (users : list doc) (m : gmap string doc) (k : string) :
  (∀ u, u ∈ users → property_key (u !! "_id") ≠ k) →
  foldl (λ usersMap user, <[property_key (user !! "_id") := user]> usersMap)
        m users !! k = m !! k.
Proof.
  revert m. induction users as [|x xs IH]; intros m H; [done|]. simpl.
  rewrite IH; [|intros u Hu; apply H; by right].
  rewrite lookup_insert_ne; [done|]. apply H. by left.
Qed.

Lemma usersMap_hit (users : list doc) (m : gmap string doc) (k : string)
    (u : doc) :
  u ∈ users → property_key (u !! "_id") = k →
  (∀ u', u' ∈ users → property_key (u' !! "_id") = k → u' = u) →
  foldl (λ usersMap user, <[property_key (user !! "_id") := user]> usersMap)
        m users !! k = Some u.
Proof.
  revert m. induction users as [|x xs IH]; intros m Hu Hk Huniq.
  - by apply elem_of_nil in Hu.
  - simpl. destruct (decide (u ∈ xs)) as [Hin|Hin].
    + apply IH; [done..|]. intros u' Hu'. apply Huniq. by right.
    + apply elem_of_cons in Hu as [->|Hu]; [|done].
      rewrite usersMap_miss; [by rewrite Hk, lookup_insert_eq|].
      intros u' Hu' Hk'. destruct Hin. by rewrite <- (Huniq u') by (by right || done).
Qed.

Lemma set_field_same (k : string) (e : option value) (d : doc) :
  set_field k e d !! k = e.
Proof. destruct e; simpl; by rewrite ?lookup_insert_eq, ?lookup_delete_eq. Qed.

Lemma join_user_fields (usersMap : gmap string doc) (resume : doc) :
  join_user usersMap resume !! "userName" = owner_of usersMap resume !! "name"
  ∧ join_user usersMap resume !! "userEmail" = owner_of usersMap resume !! "email"
  ∧ ∀ k, k ≠ "userName" → k ≠ "userEmail" → k ≠ "id" →
         join_user usersMap resume !! k = resume !! k.
Proof.
  unfold join_user. split_and!.
  - by rewrite set_field_other, set_field_same.
  - by rewrite set_field_same.
  - intros k H1 H2 H3. by rewrite !set_field_other.
Qed.

(** X15. The admin's view of the resumes names the owner of each. A resume whose
    [userId] is the identifier of no user is shown with the owner
    "Unknown User", "Unknown Email" and with its own fields, provided the
    [userId] is not the name of a member that every JavaScript object
    inherits. *)
Theorem admin_view_unknown_owner (st : Store) (r : doc) :
  r ∈ resumes st → r !! "archived" ≠ Some (VBool true) →
  (∀ u, u ∈ users st → property_key (u !! "_id") ≠ property_key (r !! "userId")) →
  Object_prototype (property_key (r !! "userId")) = None →
  ∃ everyone shown,
    run getAllResumes st = (Some (json_list 200 everyone), st)
    ∧ shown ∈ everyone
    ∧ shown !! "userName" = Some (VStr "Unknown User")
    ∧ shown !! "userEmail" = Some (VStr "Unknown Email")
    ∧ shown !! "id" = r !! "_id"
    ∧ ∀ k, k ≠ "userName" → k ≠ "userEmail" → k ≠ "id" → shown !! k = r !! k.
Proof.
  intros Hr Hact Hnone Hproto.
  eexists _, (join_user (build_usersMap (users st)) r).
  split; [reflexivity|]. cbn. rewrite find_all.
  destruct (join_user_fields (build_usersMap (users st)) r) as (Hn & He & Hk).
  assert (Ho : owner_of (build_usersMap (users st)) r = unknown_user).
  { unfold owner_of, build_usersMap. rewrite usersMap_miss by done.
    by rewrite lookup_empty, Hproto. }
  rewrite Ho in Hn, He. split_and!; try done.
  - apply list_elem_of_fmap. exists r. split; [done|].
    rewrite sort_desc_perm. apply elem_of_find. split; [done|].
    unfold matches, holds, field_is; simpl. rewrite andb_true_r.
    destruct (r !! "archived") as [v|]; [|done].
    apply negb_true_iff, bool_decide_eq_false. congruence.
  - unfold join_user. rewrite !set_field_other by done. apply set_field_same.
Qed.

(** X16. A resume whose [userId] is the identifier of a user, in the spelling
    the server gives its identifiers, is shown with the name and the email
    of that user, when the users have ObjectIds for [_id], each its own. *)
Theorem admin_view_known_owner (st : Store) (r u : doc) (o : ObjectId) :
  r ∈ resumes st → r !! "archived" ≠ Some (VBool true) →
  u ∈ users st → u !! "_id" = Some (VOid o) →
  r !! "userId" = Some (VStr (toHexString o)) →
  (∀ u', u' ∈ users st → ∃ o', u' !! "_id" = Some (VOid o')) →
  unique_ids (users st) →
  ∃ everyone shown,
    run getAllResumes st = (Some (json_list 200 everyone), st)
    ∧ shown ∈ everyone
    ∧ shown !! "userName" = u !! "name"
    ∧ shown !! "userEmail" = u !! "email"
    ∧ shown !! "id" = r !! "_id"
    ∧ ∀ k, k ≠ "userName" → k ≠ "userEmail" → k ≠ "id" → shown !! k = r !! k.
Proof.
  intros Hr Hact Hu Huid Hrid Hoids Hnd.
  eexists _, (join_user (build_usersMap (users st)) r).
  split; [reflexivity|]. cbn. rewrite find_all.
  destruct (join_user_fields (build_usersMap (users st)) r) as (Hn & He & Hk).
  assert (Ho : owner_of (build_usersMap (users st)) r = u).
  { unfold owner_of, build_usersMap. rewrite Hrid. simpl.
    rewrite (usersMap_hit _ _ _ u); [done|done|by rewrite Huid|].
    intros u' Hu' Hk'. destruct (Hoids u' Hu') as [o' Ho'].
    rewrite Ho' in Hk'. simpl in Hk'.
    assert (o' = o) as -> by (destruct o, o'; simpl in *; congruence).
    unfold unique_ids in Hnd.
    apply list_elem_of_lookup in Hu as [i Hi], Hu' as [j Hj].
    assert (i = j) as ->; [|congruence].
    eapply NoDup_lookup; [exact Hnd| |].
    + rewrite list_lookup_fmap, Hi. simpl. by rewrite Huid.
    + rewrite list_lookup_fmap, Hj. simpl. by rewrite Ho'. }
  rewrite Ho in Hn, He. split_and!; try done.
  - apply list_elem_of_fmap. exists r. split; [done|].
    rewrite sort_desc_perm. apply elem_of_find. split; [done|].
    unfold matches, holds, field_is; simpl. rewrite andb_true_r.
    destruct (r !! "archived") as [v|]; [|done].
    apply negb_true_iff, bool_decide_eq_false. congruence.
  - unfold join_user. rewrite !set_field_other by done. apply set_field_same.
Qed.

Lemma findOne_admin_Some (c : list doc) (u : doc) :
  u ∈ c → is_admin u → is_Some (findOne [("role", Is (VStr "admin"))] c).
Proof.
  intros Hu Ha. destruct (findOne _ c) eqn:Hf; [done|].
  rewrite findOne_None in Hf. specialize (Hf u Hu).
  rewrite matches_admin, bool_decide_eq_true_2 in Hf; done.
Qed.

Lemma run_createAdmin_taken (st : Store) (e : Env) (email password name : option string)
    (u : doc) :
  u ∈ users st → is_admin u →
  run (createAdmin e email password name) st
  = (Some (json Conflict (message "Admin user already exists")), st).
Proof.
  intros Hu Ha. unfold createAdmin. cbn.
  by destruct (findOne_admin_Some _ u Hu Ha) as [a ->].
Qed.

Lemma insert_admin (c : list doc) (e : Env) (name email password : string) :
  (∀ u, u ∈ c → u !! "email" ≠ Some (VStr email)) →
  (∀ u, u ∈ c → u !! "_id" ≠ Some (VOid (fresh e))) →
  insertOne ["email"] (fresh e)
    (admin_doc e name email (bcrypt_hash (salt e) password)) c
  = Some (new_admin e name email password, c ++ [new_admin e name email password]).
Proof.
  intros Hemail Hid.
  assert (Hw : with_id (fresh e) (admin_doc e name email (bcrypt_hash (salt e) password))
               = new_admin e name email password) by done.
  rewrite insertOne_fresh; rewrite Hw; [done|].
  apply violates_false. intros k u Hk Hu.
  assert (Hcases : k = "_id" ∨ k = "email") by set_solver.
  unfold index_key. destruct Hcases as [-> | ->].
  - specialize (Hid u Hu). unfold new_admin. rewrite lookup_insert_eq. simpl.
    destruct (u !! "_id"); simpl; congruence.
  - specialize (Hemail u Hu).
    replace (new_admin e name email password !! "email") with (Some (VStr email)) by done.
    simpl. destruct (u !! "email"); simpl; congruence.
Qed.

Lemma insert_admin_refused (c : list doc) (e : Env) (name email h : string)
    (u : doc) :
  u ∈ c → u !! "email" = Some (VStr email) →
  insertOne ["email"] (fresh e) (admin_doc e name email h) c = None.
Proof.
  intros Hu He. unfold insertOne.
  rewrite (violates_true _ _ _ "email" u); [done|set_solver|done|].
  unfold index_key. rewrite He. done.
Qed.

(** X17. The status probe reports an admin exactly when some user has the role
    [admin], and the creation of an admin answers Conflict exactly then,
    whatever it is given, storing nothing; with no admin it never answers
    Conflict. *)
Theorem admin_status_and_create (st : Store) :
  ∃ b,
    run adminStatus st
    = (Some (json 200 {[ "adminExists" := VBool b;
                         "message" := VStr (if b then "Admin user exists"
                                            else "No admin user found") ]}), st)
    ∧ (b = true ↔ ∃ u, u ∈ users st ∧ is_admin u)
    ∧ ∀ e email password name,
        if b
        then run (createAdmin e email password name) st
             = (Some (json Conflict (message "Admin user already exists")), st)
        else status <$> (run (createAdmin e email password name) st).1 = Some 201
             ∨ status <$> (run (createAdmin e email password name) st).1
               = Some StoreFailure.
Proof.
  destruct (findOne [("role", Is (VStr "admin"))] (users st)) as [a|] eqn:Hf.
  - exists true. unfold adminStatus. cbn. rewrite Hf.
    apply findOne_Some in Hf as [Ha Hm].
    rewrite matches_admin in Hm. apply bool_decide_eq_true in Hm.
    split; [done|]. split; [split; [intros _; by exists a|done]|].
    intros e email password name. reflexivity.
  - exists false. unfold adminStatus. cbn. rewrite Hf. split; [done|]. split.
    + split; [done|]. intros (u & Hu & Ha).
      by destruct (findOne_admin_Some _ u Hu Ha) as [x Hx]; rewrite Hf in Hx.
    + intros e email password name. cbn.
      destruct (insertOne _ _ _ _) as [[d' c']|]; cbn; [by left|by right].
Qed.

(** X18. With no admin yet, creating one with an email that a user already has
    fails with the handler's status 500, the unique index refusing the
    record, and stores nothing; the email is the one given, or
    admin@resumehub.com when none or an empty one is given. *)
Theorem create_admin_email_in_use (st : Store) (e : Env)
    (email password name : option string) (u : doc) :
  admins (users st) = [] →
  u ∈ users st →
  u !! "email" = Some (VStr (or_default email "admin@resumehub.com")) →
  run (createAdmin e email password name) st
  = (Some (json StoreFailure (message "Server error while creating admin user")), st).
Proof.
  intros Hno Hu He. apply findOne_admin_None in Hno.
  unfold createAdmin. cbn. rewrite Hno. cbn.
  by rewrite (insert_admin_refused _ _ _ _ _ u Hu He).
Qed.

(** X19. With no admin yet, an email no user has and an [_id] no user has, the
    creation answers 201 with the message, the [id] and the email, and
    appends one user with role [admin], the hash of the password and the
    fields given, each replaced when missing or empty by its default:
    "Admin User", admin@resumehub.com, the password admin123. From then on
    the creation answers Conflict. *)
Theorem create_first_admin (st : Store) (e : Env)
    (email password name : option string) :
  admins (users st) = [] →
  (∀ u, u ∈ users st →
        u !! "email" ≠ Some (VStr (or_default email "admin@resumehub.com"))) →
  (∀ u, u ∈ users st → u !! "_id" ≠ Some (VOid (fresh e))) →
  let c := run (createAdmin e email password name) st in
  let stored := new_admin e (or_default name "Admin User")
                  (or_default email "admin@resumehub.com")
                  (or_default password "admin123") in
  c = (Some (json 201
               {[ "message" := VStr "Admin user created successfully";
                  "id" := VOid (fresh e);
                  "email" := VStr (or_default email "admin@resumehub.com") ]}),
       {| users := users st ++ [stored]; resumes := resumes st |})
  ∧ is_admin stored
  ∧ stored !! "password"
    = Some (VStr (bcrypt_hash (salt e) (or_default password "admin123")))
  ∧ (∀ d, or_default None d = d ∧ or_default (Some "") d = d)
  ∧ (∀ e' email' password' name',
       run (createAdmin e' email' password' name') c.2
       = (Some (json Conflict (message "Admin user already exists")), c.2)).
Proof.
  intros Hno Hemail Hid. apply findOne_admin_None in Hno.
  assert (Hrun : run (createAdmin e email password name) st
    = (Some (json 201
               {[ "message" := VStr "Admin user created successfully";
                  "id" := VOid (fresh e);
                  "email" := VStr (or_default email "admin@resumehub.com") ]}),
       {| users := users st ++ [new_admin e (or_default name "Admin User")
                                  (or_default email "admin@resumehub.com")
                                  (or_default password "admin123")];
          resumes := resumes st |})).
  { unfold createAdmin. cbn. rewrite Hno. cbn.
    rewrite insert_admin by done. cbn. do 3 f_equal. }
  cbv zeta. rewrite Hrun. split_and!; try done.
  intros e' email' password' name'. cbn [snd].
  eapply run_createAdmin_taken; [cbn; apply elem_of_app; right; by left|done].
Qed.

(** X20. The start-up initialisation run twice creates at most one admin: where
    an admin exists it stores nothing, so the second run adds nothing to
    what the first has stored; and it never touches the resumes. *)
Theorem initializeAdmin_twice (st : Store) (e1 e2 : Env) :
  let st1 := (run (initializeAdmin e1) st).2 in
  let st2 := (run (initializeAdmin e2) st1).2 in
  (admins (users st) ≠ [] → st2 = st)
  ∧ (admins (users st) = [] → (length (admins (users st2)) ≤ 1)%nat)
  ∧ (admins (users st1) ≠ [] → st2 = st1)
  ∧ resumes st2 = resumes st.
Proof.
  assert (Hkeep : ∀ s e, admins (users s) ≠ [] → (run (initializeAdmin e) s).2 = s).
  { intros s e Hs. unfold initializeAdmin. cbn.
    destruct (findOne _ (users s)) eqn:Hf; [done|].
    by apply findOne_admin_None in Hf. }
  assert (Hstep : ∀ s e, admins (users s) = [] →
            (run (initializeAdmin e) s).2 = s
            ∨ ∃ a, is_admin a ∧ (run (initializeAdmin e) s).2
                   = {| users := users s ++ [a]; resumes := resumes s |}).
  { intros s e Hs. apply findOne_admin_None in Hs.
    unfold initializeAdmin. cbn. rewrite Hs. cbn.
    destruct (insertOne _ _ _ _) as [[d' c']|] eqn:Hi; cbn; [|by left].
    right. unfold insertOne in Hi. destruct (violates _ _ _); [done|].
    injection Hi as <- <-. eexists. split; [|reflexivity]. reflexivity. }
  assert (Hone : ∀ s a, admins (users s) = [] → is_admin a →
            admins (users s ++ [a]) = [a]).
  { intros s a Hs Ha. unfold admins in *. rewrite List.filter_app, Hs. simpl.
    by rewrite bool_decide_eq_true_2. }
  cbv zeta. split_and!.
  - intros Hs. by rewrite !Hkeep; rewrite ?Hkeep.
  - intros Hs. destruct (Hstep st e1 Hs) as [-> | (a & Ha & ->)].
    + destruct (Hstep st e2 Hs) as [-> | (a & Ha & ->)].
      * rewrite Hs. simpl. lia.
      * cbn. by rewrite Hone.
    + rewrite Hkeep; [|cbn; by rewrite Hone].
      cbn. rewrite Hone by done. simpl. lia.
  - apply Hkeep.
  - destruct (list_eq_dec (admins (users st)) []) as [Hs|Hs];
      [|by rewrite !Hkeep; rewrite ?Hkeep].
    destruct (Hstep st e1 Hs) as [-> | (a & Ha & ->)].
    + by destruct (Hstep st e2 Hs) as [-> | (a & Ha & ->)].
    + rewrite Hkeep; [done|]. cbn. by rewrite Hone.
Qed.

End Administration.

Section Connection.
Context {P : Platform}.
Variable well_formed : string → bool.

(** X22. A connection that fails is never tried again. When [client.connect()]
    is rejected the call is rejected, and [client] stays set: every later
    call is fulfilled at once with [undefined], with no error and no new
    attempt. When the creation of the first index is rejected the call is
    rejected too, and every later call is fulfilled with the database,
    the index on the emails not having been made. *)
Theorem failed_connection_sticks (cfg : Config) :
  well_formed (url cfg) = true →
  let c := settle [false] (connectToMongoDB well_formed cfg unloaded) in
  let i := settle [true; false] (connectToMongoDB well_formed cfg unloaded) in
  c.2 = Rejected
  ∧ (∀ outs, settle outs (connectToMongoDB well_formed cfg c.1)
             = (c.1, Fulfilled None))
  ∧ i.2 = Rejected
  ∧ (∀ outs, settle outs (connectToMongoDB well_formed cfg i.1)
             = (i.1, Fulfilled (Some (the_db cfg)))).
Proof.
  intros Hurl. unfold connectToMongoDB. cbn. rewrite Hurl. cbn.
  split_and!; try done; intros outs; by destruct outs.
Qed.

(** X23. A connection that succeeds is made once: the call is fulfilled with the
    database after its three awaits, every later call is fulfilled at once
    with the same database and awaits nothing; closing resets the module,
    so that closing again does nothing and the next call connects anew. *)
Theorem connect_once_close_resets (cfg : Config) :
  well_formed (url cfg) = true →
  let c := settle [true; true; true] (connectToMongoDB well_formed cfg unloaded) in
  let d := settle [true] (closeMongoDBConnection c.1) in
  c = (connected cfg, Fulfilled (Some (the_db cfg)))
  ∧ (∀ outs, settle outs (connectToMongoDB well_formed cfg c.1) = c)
  ∧ d = (unloaded, Fulfilled tt)
  ∧ closeMongoDBConnection d.1 = d
  ∧ settle [true; true; true] (connectToMongoDB well_formed cfg d.1) = c.
Proof.
  intros Hurl. unfold connectToMongoDB. cbn. rewrite Hurl. cbn.
  split_and!; try done. intros outs. by destruct outs.
Qed.

(** X24. A second call made while the first is still waiting for the connection
    is fulfilled with [undefined]; and if the connection is closed while
    the first call waits, that call is rejected when it goes on, whether
    the connection has succeeded or not. *)
Theorem call_while_connecting (cfg : Config) :
  well_formed (url cfg) = true →
  let a := connectToMongoDB well_formed cfg unloaded in
  connectToMongoDB well_formed cfg a.1 = (a.1, Fulfilled None)
  ∧ ∀ ok, (settle [ok] ((settle [true] (closeMongoDBConnection a.1)).1, a.2)).2
          = Rejected.
Proof.
  intros Hurl. unfold connectToMongoDB. cbn. rewrite Hurl. cbn.
  split; [done|]. by intros [].
Qed.


(** X21. Run with the database at hand, the initialisation stores the default
    admin when no user is an admin, none has the email admin@resumehub.com
    and none has the [_id] drawn: name "Admin User", role [admin], the hash
    of the password admin123. When the email is taken by a user the insert
    is refused, and nothing is stored and nothing reported. *)
Theorem initializeAdmin_default_admin (st : Store) (e : Env) (d : Db) :
  admins (users st) = [] →
  (∀ u, u ∈ users st → u !! "_id" ≠ Some (VOid (fresh e))) →
  let stored := new_admin e "Admin User" "admin@resumehub.com" "admin123" in
  ((∀ u, u ∈ users st → u !! "email" ≠ Some (VStr "admin@resumehub.com")) →
   run (initializeAdmin_guarded (Some d) e) st
   = (Some tt, {| users := users st ++ [stored]; resumes := resumes st |}))
  ∧ ((∃ u, u ∈ users st ∧ u !! "email" = Some (VStr "admin@resumehub.com")) →
     run (initializeAdmin_guarded (Some d) e) st = (Some tt, st))
  ∧ run (initializeAdmin_guarded None e) st = (Some tt, st)
  ∧ is_admin stored
  ∧ stored !! "name" = Some (VStr "Admin User")
  ∧ stored !! "password" = Some (VStr (bcrypt_hash (salt e) "admin123")).
Proof.
  intros Hno Hid. apply findOne_admin_None in Hno. cbv zeta. split_and!; try done.
  - intros Hemail. unfold initializeAdmin_guarded, initializeAdmin. cbn.
    rewrite Hno. cbn. by rewrite insert_admin.
  - intros (u & Hu & He). unfold initializeAdmin_guarded, initializeAdmin. cbn.
    rewrite Hno. cbn. by rewrite (insert_admin_refused _ _ _ _ _ u Hu He).
Qed.

End Connection.

(** * The theorems at work on the example database *)

Section Examples.
Import Node.

(** The handlers run on [db0]. *)
Example listing_of_alice :
  run (getUserResumes alice_id) db0 = (Some (json_list 200 [add_id cv]), db0).
Proof. reflexivity. Qed.

Example archived_listing_of_alice :
  run (getArchivedResumes alice_id) db0 = (Some (json_list 200 [add_id cv2]), db0).
Proof. reflexivity. Qed.

Example archive_of_cv :
  run (archiveResume env0 cv_id) db0
  = (Some (json 200 (message "Resume archived successfully")),
     {| users := [admin; alice];
        resumes := [<["archived" := VBool true]> (<["archivedAt" := VDate 5000]> cv); cv2] |}).
Proof. reflexivity. Qed.

Example login_of_alice :
  run (login "alice@example.com" "secret") db0
  = (Some (json 200 (<["id" := VOid (Oid alice_id)]> (delete "password" alice))), db0)
  ∧ run (login "alice@example.com" "guess") db0
    = (Some (json 401 (message "Invalid email or password")), db0)
  ∧ run (login "bob@example.com" "secret") db0
    = (Some (json 401 (message "Invalid email or password")), db0).
Proof. by split_and!. Qed.

Example listing_of_users :
  run getAllUsers db0 = (Some (json_list 200 [add_id (delete "password" alice)]), db0).
Proof. reflexivity. Qed.

(** The cascade compares [userId] with the identifier as the request spells
    it: under another spelling of the same ObjectId the user is deleted and
    the resumes, stored under the spelling the server hands out, are not
    counted. *)
Example cascade_under_other_spelling :
  run (deleteUser ALICE_ID) db0
  = (Some (json 200
             {[ "message" := VStr "User and all associated resumes deleted successfully";
                "deletedResumes" := VNum 0 ]}),
     {| users := [admin]; resumes := [cv; cv2] |}).
Proof. reflexivity. Qed.

Lemma db0_unique_ids : unique_ids (users db0).
Proof. unfold unique_ids. simpl. repeat constructor; set_solver. Defined.

Lemma db0_unique_emails : unique_emails (users db0).
Proof. unfold unique_emails. simpl. repeat constructor; set_solver. Defined.

Lemma db0_no_password : Forall no_password (resumes db0).
Proof. by repeat constructor. Defined.

Lemma unnamed_in_db0 (id : string) :
  hex_ObjectId id = None ∨ hex_ObjectId id = Some (Oid nobody_id) →
  ∀ r, r ∈ resumes db0 → ¬ names id r.
Proof.
  intros Hid r Hr (oid & Hp & Hd). simpl in Hp.
  assert (Hcases : r = cv ∨ r = cv2) by set_solver.
  destruct Hid as [Hid|Hid]; rewrite Hid in Hp; [done|].
  injection Hp as <-. by destruct Hcases as [-> | ->].
Defined.

(** C6 as the specification states it fails on the identifier ["abc"]: no
    resume has it, and the three operations answer with status 500, not
    with NotFound. *)
Lemma malformed_id_is_not_NotFound :
  (∀ r, r ∈ resumes db0 → ¬ names "abc" r)
  ∧ status <$> (run (archiveResume env0 "abc") db0).1 = Some StoreFailure
  ∧ status <$> (run (restoreResume "abc") db0).1 = Some StoreFailure
  ∧ status <$> (run (deleteResume "abc") db0).1 = Some StoreFailure
  ∧ StoreFailure ≠ NotFound.
Proof. split; [apply unnamed_in_db0; by left|]. by split_and!. Qed.

Lemma unknown_resume_id_witness :
  run (archiveResume env0 nobody_id) db0
    = (Some (json NotFound (message "Resume not found")), db0)
  ∧ run (restoreResume nobody_id) db0
    = (Some (json NotFound (message "Resume not found")), db0)
  ∧ run (deleteResume nobody_id) db0
    = (Some (json NotFound (message "Resume not found")), db0).
Proof.
  exact (unknown_resume_id db0 env0 nobody_id
           (unnamed_in_db0 nobody_id (or_intror eq_refl))).
Defined.

Lemma restore_never_archived_witness :
  run (restoreResume cv_id) db0
    = (Some (json 200 (message "Resume restored successfully")), db0).
Proof.
  apply (restore_never_archived db0 cv_id (Oid cv_id) cv); [done..|].
  by split.
Defined.

Lemma archive_then_restore_witness :
  let a := run (archiveResume env0 cv_id) db0 in
  let b := run (restoreResume cv_id) a.2 in
  a.1 = Some (json 200 (message "Resume archived successfully"))
  ∧ b.1 = Some (json 200 (message "Resume restored successfully"))
  ∧ b.2 = db0.
Proof.
  destruct (archive_then_restore (P := platform) db0 env0 cv_id (Oid cv_id) cv ltac:(reflexivity) ltac:(reflexivity))
    as (Ha & Hb & _ & _ & _ & _ & _ & _ & Hn).
  split_and!; [exact Ha | exact Hb |]. apply Hn. by split.
Defined.

Lemma delete_user_cascade_witness :
  ∃ st',
    run (deleteUser alice_id) db0
      = (Some (json 200
                 {[ "message" := VStr "User and all associated resumes deleted successfully";
                    "deletedResumes" := VNum 2 ]}), st')
    ∧ resumes st' = [].
Proof.
  destruct (delete_user_cascade (P := platform) db0 alice_id (Oid alice_id) alice 2
              ltac:(reflexivity) ltac:(reflexivity) ltac:(done) db0_unique_ids ltac:(reflexivity))
    as (st' & Hrun & _ & _ & Hres & _).
  exists st'. split; [exact Hrun|]. by rewrite Hres.
Defined.

Lemma delete_admin_forbidden_witness :
  run (deleteUser admin_id) db0
    = (Some (json Forbidden (message "Cannot delete admin users")), db0).
Proof.
  exact (delete_admin_forbidden (P := platform) db0 admin_id (Oid admin_id) admin
           ltac:(reflexivity) ltac:(reflexivity) ltac:(reflexivity)).
Defined.

Lemma login_outcome_witness :
  ∃ resp,
    run (login "alice@example.com" "secret") db0 = (Some resp, db0)
    ∧ status resp = 200.
Proof.
  destruct (login_outcome db0 "alice@example.com" "secret" db0_unique_emails)
    as (resp & Hrun & Hiff & _).
  exists resp. split; [exact Hrun|]. apply Hiff.
  exists alice, "s1$secret". split_and!; [set_solver | done..].
Defined.

Lemma no_password_in_answers_witness :
  ∃ resp st',
    run (handle env0 (POST_users_login "alice@example.com" "secret")) db0
      = (Some resp, st')
    ∧ Forall no_password (docs_of resp)
    ∧ Forall no_password (resumes st').
Proof.
  exact (no_password_in_answers env0
           (POST_users_login "alice@example.com" "secret") db0 db0_no_password).
Defined.

Lemma cascade_not_atomic_witness :
  ∃ st',
    interleave [0; 1; 1; 0; 0; 1]%nat [deleteUser alice_id; deleteUser alice_id] db0
    = ([Ret (json 200
               {[ "message" := VStr "User and all associated resumes deleted successfully";
                  "deletedResumes" := VNum 0 ]});
        Ret (json NotFound (message "User not found"))], st')
    ∧ resumes st' ≠ resumes db0.
Proof.
  destruct (cascade_not_atomic (P := platform) db0 alice_id (Oid alice_id) alice
              ltac:(reflexivity) ltac:(reflexivity) ltac:(done) db0_unique_ids)
    as (_ & _ & _ & st' & Hi & _ & Hne).
  exists st'. split; [exact Hi|]. apply Hne. exists cv. split; [set_solver|done].
Defined.

Lemma save_resume_unchecked_witness :
  (∀ u, u ∈ users db0 → ¬ owned_by nobody_id u ∧ ¬ names nobody_id u)
  ∧ status <$> (run (saveResume env0 (VStr nobody_id) (VStr "cv3.pdf")
                       (VStr "third") (VStr "JVBERi2=")) db0).1 = Some 201.
Proof.
  split.
  - intros u Hu. assert (Hcases : u = admin ∨ u = alice) by set_solver.
    split; [by destruct Hcases as [-> | ->]|].
    intros (oid & Hp & Hd). injection Hp as <-.
    by destruct Hcases as [-> | ->].
  - destruct (save_resume_unchecked (users db0) (resumes db0) env0
                (VStr nobody_id) (VStr "cv3.pdf") (VStr "third") (VStr "JVBERi2="))
      as [Hrun _].
    + intros r Hr. assert (Hcases : r = cv ∨ r = cv2) by set_solver.
      by destruct Hcases as [-> | ->].
    + change db0 with {| users := users db0; resumes := resumes db0 |}.
      by rewrite Hrun.
Defined.

End Examples.

Section MoreExamples.
Import Node.

Lemma in_users_db0 (u : doc) : u ∈ users db0 → u = admin ∨ u = alice.
Proof. set_solver. Defined.

Lemma in_resumes_db0 (r : doc) : r ∈ resumes db0 → r = cv ∨ r = cv2.
Proof. set_solver. Defined.

Lemma db0_unique_resume_ids : unique_ids (resumes db0).
Proof. unfold unique_ids. simpl. repeat constructor; set_solver. Defined.

Lemma db0_well_keyed : well_keyed db0.
Proof.
  split_and!; [apply db0_unique_ids|apply db0_unique_resume_ids|apply db0_unique_emails].
Defined.

Lemma db0_no_bob (u : doc) :
  u ∈ users db0 → u !! "email" ≠ Some (VStr "bob@example.com").
Proof. by intros [-> | ->]%in_users_db0. Defined.

Lemma db0_users_fresh (u : doc) :
  u ∈ users db0 → u !! "_id" ≠ Some (VOid (fresh env0)).
Proof. by intros [-> | ->]%in_users_db0. Defined.

Lemma db0_resumes_fresh (r : doc) :
  r ∈ resumes db0 → r !! "_id" ≠ Some (VOid (fresh env0)).
Proof. by intros [-> | ->]%in_resumes_db0. Defined.

Lemma in_users_db2 (u : doc) : u ∈ users db2 → u = alice.
Proof. set_solver. Defined.

(** The join in the admin's view, for a resume whose owner is gone. *)
Example admin_view_of_orphans :
  run getAllResumes db1
  = (Some (json_list 200
             [<["userEmail" := VStr "Unknown Email"]>
                (<["userName" := VStr "Unknown User"]> (add_id cv))]), db1).
Proof. reflexivity. Qed.

Lemma register_email_taken_witness :
  run (register env0 "Al" "alice@example.com" "pw") db0
  = (Some (json Conflict (message "User with this email already exists")), db0).
Proof.
  apply register_email_taken. exists alice. split; [set_solver|done].
Defined.

Lemma register_new_email_witness :
  ∃ stored answer,
    run (register env0 "Bob" "bob@example.com" "pw") db0
    = (Some (json 201 answer),
       {| users := users db0 ++ [stored]; resumes := resumes db0 |})
    ∧ stored !! "password" = Some (VStr "s2$pw")
    ∧ answer !! "password" = None.
Proof.
  destruct (register_new_email db0 env0 "Bob" "bob@example.com" "pw"
              db0_no_bob db0_users_fresh)
    as (stored & answer & Hrun & Hp & _ & _ & _ & _ & _ & _ & Ha).
  by exists stored, answer.
Defined.

Lemma register_then_login_witness :
  ∃ answer,
    (run (register env0 "Bob" "bob@example.com" "pw") db0).1
    = Some (json 201 answer)
    ∧ run (login "bob@example.com" "pw")
          (run (register env0 "Bob" "bob@example.com" "pw") db0).2
      = (Some (json 200 answer),
         (run (register env0 "Bob" "bob@example.com" "pw") db0).2).
Proof.
  apply (register_then_login (P := platform) db0 env0 "Bob" "bob@example.com" "pw"
           db0_no_bob db0_users_fresh).
  reflexivity.
Defined.

Lemma register_twice_witness :
  run (register env1 "Robert" "bob@example.com" "other")
      (run (register env0 "Bob" "bob@example.com" "pw") db0).2
  = (Some (json Conflict (message "User with this email already exists")),
     (run (register env0 "Bob" "bob@example.com" "pw") db0).2).
Proof.
  apply (register_twice db0 env0 env1 "Bob" "bob@example.com" "pw" "Robert" "other"
           db0_no_bob db0_users_fresh).
Defined.

Lemma requests_keep_keys_witness :
  well_keyed (run (handle env0 (POST_users_register "Bob" "bob@example.com" "pw")) db0).2.
Proof. apply requests_keep_keys, db0_well_keyed. Defined.

Lemma requests_write_their_collection_witness :
  users (run (handle env0 (PUT_resumes_archive cv_id)) db0).2 = users db0.
Proof.
  apply (requests_write_their_collection env0 (PUT_resumes_archive cv_id) Users db0).
  reflexivity.
Defined.

Lemma delete_resume_for_good_witness :
  (run (deleteResume cv2_id) db0).1
  = Some (json 200 (message "Resume deleted permanently"))
  ∧ run (restoreResume cv2_id) (run (deleteResume cv2_id) db0).2
    = (Some (json NotFound (message "Resume not found")),
       (run (deleteResume cv2_id) db0).2).
Proof.
  destruct (delete_resume_for_good (P := platform) db0 cv2_id (Oid cv2_id) cv2
              ltac:(reflexivity) ltac:(reflexivity) db0_unique_resume_ids)
    as (H1 & _ & _ & _ & _ & _ & H2 & _).
  by split.
Defined.

Lemma archive_moves_to_archived_witness :
  ∃ active archived,
    run (getUserResumes alice_id) (run (archiveResume env0 cv_id) db0).2
    = (Some (json_list 200 active), (run (archiveResume env0 cv_id) db0).2)
    ∧ run (getArchivedResumes alice_id) (run (archiveResume env0 cv_id) db0).2
      = (Some (json_list 200 archived), (run (archiveResume env0 cv_id) db0).2)
    ∧ add_id (<["archived" := VBool true]> (<["archivedAt" := VDate 5000]> cv))
      ∈ archived
    ∧ (∀ x, x ∈ active → x !! "_id" ≠ Some (VOid (Oid cv_id))).
Proof.
  apply (archive_moves_to_archived (P := platform) db0 env0 cv_id (Oid cv_id) cv alice_id
           ltac:(reflexivity) ltac:(reflexivity) ltac:(reflexivity)
           db0_unique_resume_ids).
Defined.

Lemma restore_moves_to_active_witness :
  ∃ active archived,
    run (getUserResumes alice_id) (run (restoreResume cv2_id) db0).2
    = (Some (json_list 200 active), (run (restoreResume cv2_id) db0).2)
    ∧ run (getArchivedResumes alice_id) (run (restoreResume cv2_id) db0).2
      = (Some (json_list 200 archived), (run (restoreResume cv2_id) db0).2)
    ∧ add_id (delete "archived" (delete "archivedAt" cv2)) ∈ active
    ∧ (∀ x, x ∈ archived → x !! "_id" ≠ Some (VOid (Oid cv2_id))).
Proof.
  apply (restore_moves_to_active (P := platform) db0 cv2_id (Oid cv2_id) cv2 alice_id
           ltac:(reflexivity) ltac:(reflexivity) ltac:(reflexivity)
           db0_unique_resume_ids).
Defined.

Lemma delete_unknown_user_witness :
  run (deleteUser nobody_id) db0
  = (Some (json NotFound (message "User not found")), db0).
Proof.
  refine (delete_unknown_user (P := platform) db0 nobody_id _).
  intros u Hu (oid & Hp & Hd). injection Hp as <-.
  by destruct (in_users_db0 u Hu) as [-> | ->].
Defined.

Lemma saved_resume_is_listed_witness :
  ∃ answer active,
    (run (saveResume env0 (VStr alice_id) (VStr "cv3.pdf") (VStr "third")
            (VStr "JVBERi2=")) db0).1 = Some (json 201 answer)
    ∧ run (getUserResumes alice_id)
          (run (saveResume env0 (VStr alice_id) (VStr "cv3.pdf") (VStr "third")
                  (VStr "JVBERi2=")) db0).2
      = (Some (json_list 200 active),
         (run (saveResume env0 (VStr alice_id) (VStr "cv3.pdf") (VStr "third")
                 (VStr "JVBERi2=")) db0).2)
    ∧ answer ∈ active.
Proof.
  destruct (saved_resume_is_listed db0 env0 alice_id (VStr "cv3.pdf") (VStr "third")
              (VStr "JVBERi2=") db0_resumes_fresh)
    as (answer & active & H1 & H2 & H3 & _).
  by exists answer, active.
Defined.

Lemma admin_view_unknown_owner_witness :
  ∃ everyone shown,
    run getAllResumes db1 = (Some (json_list 200 everyone), db1)
    ∧ shown ∈ everyone
    ∧ shown !! "userName" = Some (VStr "Unknown User")
    ∧ shown !! "userEmail" = Some (VStr "Unknown Email")
    ∧ shown !! "fileName" = Some (VStr "cv.pdf").
Proof.
  destruct (admin_view_unknown_owner (P := platform) db1 cv) as
    (everyone & shown & H1 & H2 & H3 & H4 & _ & H5).
  - set_solver.
  - done.
  - intros u Hu. assert (u = admin) as -> by set_solver. done.
  - reflexivity.
  - exists everyone, shown. split_and!; try done. by rewrite H5.
Defined.

Lemma admin_view_known_owner_witness :
  ∃ everyone shown,
    run getAllResumes db0 = (Some (json_list 200 everyone), db0)
    ∧ shown ∈ everyone
    ∧ shown !! "userName" = Some (VStr "Alice")
    ∧ shown !! "userEmail" = Some (VStr "alice@example.com").
Proof.
  destruct (admin_view_known_owner (P := platform) db0 cv alice (Oid alice_id)) as
    (everyone & shown & H1 & H2 & H3 & H4 & _).
  - set_solver.
  - done.
  - set_solver.
  - reflexivity.
  - reflexivity.
  - intros u [-> | ->]%in_users_db0; by eexists.
  - apply db0_unique_ids.
  - by exists everyone, shown.
Defined.

Lemma create_admin_email_in_use_witness :
  run (createAdmin env0 (Some "alice@example.com") None None) db2
  = (Some (json StoreFailure (message "Server error while creating admin user")), db2).
Proof.
  apply (create_admin_email_in_use (P := platform) db2 env0
           (Some "alice@example.com") None None alice);
    [reflexivity|set_solver|reflexivity].
Defined.

Lemma create_first_admin_witness :
  (run (createAdmin env0 None None (Some "")) db2).1
  = Some (json 201
            {[ "message" := VStr "Admin user created successfully";
               "id" := VOid (fresh env0);
               "email" := VStr "admin@resumehub.com" ]})
  ∧ users (run (createAdmin env0 None None (Some "")) db2).2
    = [alice; new_admin env0 "Admin User" "admin@resumehub.com" "admin123"].
Proof.
  destruct (create_first_admin (P := platform) db2 env0 None None (Some ""))
    as (H & _).
  - reflexivity.
  - by intros u ->%in_users_db2.
  - by intros u ->%in_users_db2.
  - by rewrite H.
Defined.

Lemma initializeAdmin_default_admin_witness :
  run (initializeAdmin_guarded (Some (the_db config0)) env0) db2
  = (Some tt,
     {| users := [alice; new_admin env0 "Admin User" "admin@resumehub.com" "admin123"];
        resumes := [cv; cv2] |})
  ∧ run (initializeAdmin_guarded None env0) db2 = (Some tt, db2).
Proof.
  destruct (initializeAdmin_default_admin (P := platform) db2 env0 (the_db config0))
    as (H1 & _ & H2 & _).
  - reflexivity.
  - by intros u ->%in_users_db2.
  - split; [|exact H2]. apply H1. by intros u ->%in_users_db2.
Defined.

(** The start of the server on a database without an admin, and with a
    connection string that has no scheme. *)
Example startup_on_db2 :
  startup mongodb_scheme config0 [true; true; true] env0 db2
  = {| module_state := connected config0;
       server_db := Some (client_db (new_MongoClient "mongodb://localhost:27017")
                                    "resumeHub");
       listening := true; exited := false; store := db2 |}
  ∧ startup mongodb_scheme config1 [true; true; true] env0 db2
    = {| module_state := unloaded; server_db := None;
         listening := false; exited := true; store := db2 |}.
Proof. split; reflexivity. Qed.

Lemma failed_connection_sticks_witness :
  (settle [false] (connectToMongoDB mongodb_scheme config0 unloaded)).2 = Rejected
  ∧ (∀ outs,
       settle outs
         (connectToMongoDB mongodb_scheme config0
            (settle [false] (connectToMongoDB mongodb_scheme config0 unloaded)).1)
       = ((settle [false] (connectToMongoDB mongodb_scheme config0 unloaded)).1,
          Fulfilled None)).
Proof.
  destruct (failed_connection_sticks mongodb_scheme config0 eq_refl)
    as (H1 & H2 & _).
  by split.
Defined.

Lemma connect_once_close_resets_witness :
  settle [true; true; true] (connectToMongoDB mongodb_scheme config0 unloaded)
  = (connected config0, Fulfilled (Some (the_db config0)))
  ∧ settle [true] (closeMongoDBConnection (connected config0))
    = (unloaded, Fulfilled tt).
Proof.
  destruct (connect_once_close_resets mongodb_scheme config0 eq_refl)
    as (H1 & _ & H2 & _).
  split; [exact H1|]. by rewrite H1 in H2.
Defined.

Lemma call_while_connecting_witness :
  connectToMongoDB mongodb_scheme config0
    (connectToMongoDB mongodb_scheme config0 unloaded).1
  = ((connectToMongoDB mongodb_scheme config0 unloaded).1, Fulfilled None).
Proof.
  by destruct (call_while_connecting mongodb_scheme config0 eq_refl) as [H _].
Defined.

(** C3, where the code departs from it. [alice] exists, is no admin, and
    owns two resumes: their [userId] is her identifier as the server gives
    it, the listing under that identifier is those two, and the admin's
    view shows them under her name. The driver resolves [ALICE_ID], the
    same identifier in upper case, to her [_id], so the handler finds her,
    passes the check of her role and deletes her; but [deleteMany] compares
    [userId] with the string of the request, finds no resume, and the
    answer is 200 with [deletedResumes] 0 while both resumes stay, now with
    no owner. *)
Theorem delete_user_cascade_other_spelling :
  names ALICE_ID alice
  ∧ findOne [("_id", Is (VOid (Oid alice_id)))] (users db0) = Some alice
  ∧ alice !! "role" = Some (VStr "user")
  ∧ alice !! "_id" = Some (VOid (Oid alice_id))
  ∧ List.filter (λ r, bool_decide (r !! "userId"
                                     = Some (VStr (toHexString (Oid alice_id)))))
                (resumes db0) = [cv; cv2]
  ∧ (run (getUserResumes alice_id) db0).1 = Some (json_list 200 [add_id cv])
  ∧ (run (getArchivedResumes alice_id) db0).1 = Some (json_list 200 [add_id cv2])
  ∧ join_user (build_usersMap (users db0)) cv !! "userName" = alice !! "name"
  ∧ run (deleteUser ALICE_ID) db0
    = (Some (json 200
               {[ "message" := VStr "User and all associated resumes deleted successfully";
                  "deletedResumes" := VNum 0 ]}),
       {| users := [admin]; resumes := [cv; cv2] |})
  ∧ run (deleteUser alice_id) db0
    = (Some (json 200
               {[ "message" := VStr "User and all associated resumes deleted successfully";
                  "deletedResumes" := VNum 2 ]}),
       {| users := [admin]; resumes := [] |}).
Proof.
  split; [by exists (Oid alice_id)|]. by split_and!.
Qed.

End MoreExamples.
